(** * Trivia API: the Flask handlers of [flaskr/__init__.py]

    A shallow embedding of the request handlers of the trivia back end
    ([get_questions], [delete_question], [create_question],
    [question_search], [get_questions_by_category], [set_quiz]) together
    with the properties its specification states about them.

    Python values that arrive as JSON are kept dynamically typed ([json]);
    exceptions are an explicit [result]; the database is an explicit
    [Store] that the mutating handlers thread through; [random.randint]
    reads an entropy tape. Text is 7-bit ASCII and JSON numbers are
    integers. *)

From Stdlib Require Import List String Ascii ZArith Lia Bool DecimalString Sorted Permutation.
From Stdlib Require DecimalZ DecimalPos.
Import ListNotations.

Local Open Scope string_scope.
Local Open Scope Z_scope.

(* ================================================================== *)
(** * Python values, exceptions *)
(* ================================================================== *)

(** What [request.get_json()] hands to a handler. *)
#[warnings="-register-all"] Inductive json : Type :=
| JNull
| JBool (b : bool)
| JNum (n : Z)
| JStr (s : string)
| JList (l : list json)
| JObj (kvs : list (string * json)).

(** The exceptions the handlers can meet. [HTTPException c] is what
    [abort(c)] raises. *)
Inductive exn : Type :=
| HTTPException (code : Z)
| KeyError (key : string)
| TypeError
| AttributeError
| ValueError
| IndexError
| MultipleResultsFound
| StoreError.

Inductive result (A : Type) : Type :=
| Ok (a : A)
| Raise (e : exn).
Arguments Ok {A} a.
Arguments Raise {A} e.

Definition bind {A B} (c : result A) (k : A -> result B) : result B :=
  match c with
  | Ok a => k a
  | Raise e => Raise e
  end.

Declare Scope py_scope.
Delimit Scope py_scope with py.
Notation "x <- c ;; k" := (bind c (fun x => k))
  (at level 61, c at next level, right associativity) : py_scope.
Notation "' pat <- c ;; k" := (bind c (fun x => match x with pat => k end))
  (at level 61, pat pattern, c at next level, right associativity) : py_scope.
Notation "c ;;; k" := (bind c (fun _ => k))
  (at level 61, right associativity) : py_scope.
Local Open Scope py_scope.

(** [abort(code)] *)
Definition abort {A} (code : Z) : result A := Raise (HTTPException code).

(** [try: body  except: handler] with a bare [except], which catches every
    exception, the [HTTPException] of an [abort] included. *)
Definition try_except {A} (body handler : result A) : result A :=
  match body with
  | Ok a => Ok a
  | Raise _ => handler
  end.

Section PythonValues.

Fixpoint dict_lookup (kvs : list (string * json)) (k : string) : option json :=
  match kvs with
  | [] => None
  | (k', v) :: rest => if String.eqb k' k then Some v else dict_lookup rest k
  end.

(** [d[k] = v] on a dict: replaces in place, or appends a new key. *)
Fixpoint dict_set (kvs : list (string * json)) (k : string) (v : json)
  : list (string * json) :=
  match kvs with
  | [] => [(k, v)]
  | (k', v') :: rest =>
      if String.eqb k' k then (k', v) :: rest else (k', v') :: dict_set rest k v
  end.

(** [data[k]] for a string key [k]. *)
Definition subscript (data : json) (k : string) : result json :=
  match data with
  | JObj kvs =>
      match dict_lookup kvs k with
      | Some v => Ok v
      | None => Raise (KeyError k)
      end
  | _ => Raise TypeError
  end.

(** [data.get(k, None)] *)
Definition dict_get (data : json) (k : string) : result json :=
  match data with
  | JObj kvs =>
      match dict_lookup kvs k with
      | Some v => Ok v
      | None => Ok JNull
      end
  | _ => Raise AttributeError
  end.

(** [v is None] *)
Definition is_None (v : json) : bool :=
  match v with JNull => true | _ => false end.

(** Truth value of [v] in an [if]. *)
Definition truthy (v : json) : bool :=
  match v with
  | JNull => false
  | JBool b => b
  | JNum n => negb (n =? 0)
  | JStr s => negb (String.eqb s "")
  | JList l => match l with [] => false | _ => true end
  | JObj kvs => match kvs with [] => false | _ => true end
  end.

(** [v == n] for an integer [n]; a Python [bool] is an [int]. *)
Definition py_eq_int (v : json) (n : Z) : bool :=
  match v with
  | JNum m => m =? n
  | JBool b => (if b then 1 else 0) =? n
  | _ => false
  end.

(** [n in c] for an integer [n]: membership in a list, key membership in
    a dict (whose keys are strings), a [TypeError] otherwise. *)
Definition py_in_int (n : Z) (c : json) : result bool :=
  match c with
  | JList l => Ok (existsb (fun v => py_eq_int v n) l)
  | JObj _ => Ok false
  | _ => Raise TypeError
  end.

(** [l[i]] on a list: negative indices count from the end. *)
Definition list_getitem {A} (l : list A) (i : Z) : result A :=
  let n := Z.of_nat (List.length l) in
  let j := if i <? 0 then i + n else i in
  if (j <? 0) || (n <=? j) then Raise IndexError
  else match nth_error l (Z.to_nat j) with
       | Some a => Ok a
       | None => Raise IndexError
       end.

(** [str(n)] for an integer. *)
Definition str_of_int (n : Z) : string := NilZero.string_of_int (Z.to_int n).

End PythonValues.

(* ================================================================== *)
(** * [str()] of a JSON value, as an f-string embeds it *)
(* ================================================================== *)

Section Str.

Definition hex_digit (n : nat) : ascii :=
  nth n (list_ascii_of_string "0123456789abcdef") "0"%char.

Definition double_quote : ascii := ascii_of_nat 34.

(** One character inside [repr] of a string quoted with [quote]. *)
Definition repr_char (quote c : ascii) : list ascii :=
  let n := nat_of_ascii c in
  if Ascii.eqb c "\"%char then list_ascii_of_string "\\"
  else if Ascii.eqb c quote then ["\"%char; quote]
  else if Nat.eqb n 9 then list_ascii_of_string "\t"
  else if Nat.eqb n 10 then list_ascii_of_string "\n"
  else if Nat.eqb n 13 then list_ascii_of_string "\r"
  else if Nat.ltb n 32 || Nat.eqb n 127
       then ["\"%char; "x"%char; hex_digit (Nat.div n 16); hex_digit (Nat.modulo n 16)]
  else [c].

Definition has_char (c : ascii) (s : list ascii) : bool :=
  existsb (Ascii.eqb c) s.

(** [repr(s)]: single quotes unless [s] has a single quote and no double
    quote. *)
Definition repr_str (s : string) : string :=
  let cs := list_ascii_of_string s in
  let quote := if has_char "'"%char cs && negb (has_char double_quote cs)
               then double_quote else "'"%char in
  string_of_list_ascii ([quote] ++ flat_map (repr_char quote) cs ++ [quote])%list.

Fixpoint join (sep : string) (l : list string) : string :=
  match l with
  | [] => ""
  | [x] => x
  | x :: rest => x ++ sep ++ join sep rest
  end.

Fixpoint py_repr (v : json) : string :=
  match v with
  | JNull => "None"
  | JBool b => if b then "True" else "False"
  | JNum n => str_of_int n
  | JStr s => repr_str s
  | JList l => "[" ++ join ", " (map py_repr l) ++ "]"
  | JObj kvs =>
      "{" ++ join ", " (map (fun kv => repr_str (fst kv) ++ ": " ++ py_repr (snd kv)) kvs)
          ++ "}"
  end.

(** [str(v)] *)
Definition py_str (v : json) : string :=
  match v with
  | JStr s => s
  | _ => py_repr v
  end.

End Str.

(* ================================================================== *)
(** * The store *)
(* ================================================================== *)

(** Modelled from the spec: [models.py] ([Question], [Category], their
    [insert], [delete] and [format], and the query interface) is not among
    the sources. The records follow the data model of the specification
    (section 3) and the operations follow its store interface (section 6):
    ids are assigned by the store, positive and unique; a mutation either
    succeeds or raises a store error. *)
Record Question : Type := {
  q_id : Z;
  q_question : string;
  q_answer : string;
  q_category : Z;
  q_difficulty : Z
}.

(** Modelled from the spec: the [Category] class of the absent
    [models.py], an id and a display name (section 3). *)
Record Category : Type := {
  c_id : Z;
  c_type : string
}.

(** Modelled from the spec: the database behind the absent [models.py],
    the two tables in table order and the id sequence of the questions
    table. *)
Record Store : Type := {
  questions : list Question;
  categories : list Category;
  next_id : Z
}.

Section StoreOps.

(** Modelled from the spec: [Question.format()], the JSON form of a row
    with the five fields of the data model. *)
Definition format (q : Question) : json :=
  JObj [("id", JNum (q_id q));
        ("question", JStr (q_question q));
        ("answer", JStr (q_answer q));
        ("category", JNum (q_category q));
        ("difficulty", JNum (q_difficulty q))].

(** [Question.query.all()] *)
Definition Question_query_all (st : Store) : list Question := questions st.

(** [Category.query.all()] *)
Definition Category_query_all (st : Store) : list Category := categories st.

Fixpoint insert_by_id (q : Question) (l : list Question) : list Question :=
  match l with
  | [] => [q]
  | r :: rest =>
      if q_id q <=? q_id r then q :: r :: rest else r :: insert_by_id q rest
  end.

(** [.order_by(Question.id)] *)
Fixpoint order_by_id (l : list Question) : list Question :=
  match l with
  | [] => []
  | q :: rest => insert_by_id q (order_by_id rest)
  end.

(** The largest [bigint] of the database, 2^63 - 1. *)
Definition max_bigint : Z := 9223372036854775807.

(** The rows that [LIMIT n OFFSET k] keeps. *)
Definition slice_rows {A} (n k : Z) (rows : list A) : list A :=
  firstn (Z.to_nat n) (skipn (Z.to_nat k) rows).

(** [.limit(n).offset(k).all()]: the database takes [n] and [k] as
    [bigint] values that are not negative and refuses the query
    otherwise. *)
Definition limit_offset {A} (n k : Z) (rows : list A) : result (list A) :=
  if (n <? 0) || (k <? 0) || (max_bigint <? n) || (max_bigint <? k)
  then Raise StoreError
  else Ok (slice_rows n k rows).

(** Flask-SQLAlchemy's [query.paginate(page, per_page)] with its default
    [error_out=True], [.items] taken: a page below 1, a negative page size
    and an empty page other than the first are a 404. *)
Definition paginate {A} (rows : list A) (page per_page : Z) : result (list A) :=
  if page <? 1 then abort 404
  else if per_page <? 0 then abort 404
  else
    items <- limit_offset per_page ((page - 1) * per_page) rows;;
    match items with
    | [] => if negb (page =? 1) then abort 404 else Ok items
    | _ => Ok items
    end.

(** [Question.query.get(id)]: the row with that primary key, or [None]. *)
Definition Question_query_get (st : Store) (id : Z) : option Question :=
  find (fun q => q_id q =? id) (questions st).

(** [.one_or_none()] *)
Definition one_or_none {A} (rows : list A) : result (option A) :=
  match rows with
  | [] => Ok None
  | [r] => Ok (Some r)
  | _ => Raise MultipleResultsFound
  end.

(** A bound value for an integer column. *)
Definition as_int (v : json) : option Z :=
  match v with JNum n => Some n | _ => None end.

(** A bound value for a text column. *)
Definition as_text (v : json) : option string :=
  match v with JStr s => Some s | _ => None end.

(** The blanks the database skips around a number. *)
Definition is_space (c : ascii) : bool :=
  let n := nat_of_ascii c in
  Nat.eqb n 32 || (Nat.leb 9 n && Nat.leb n 13).

Fixpoint skip_spaces (s : list ascii) : list ascii :=
  match s with
  | [] => []
  | c :: s' => if is_space c then skip_spaces s' else s
  end.

Definition digit_of (c : ascii) : option Z :=
  let n := nat_of_ascii c in
  if (Nat.leb 48 n && Nat.leb n 57)%bool then Some (Z.of_nat (n - 48)) else None.

(** The digits at the front of [s], read onto [acc], and what follows. *)
Fixpoint read_digits (acc : Z) (s : list ascii) : Z * list ascii :=
  match s with
  | [] => (acc, [])
  | c :: s' =>
      match digit_of c with
      | Some d => read_digits (10 * acc + d) s'
      | None => (acc, s)
      end
  end.

(** A text compared with an [integer] column: the database reads it as
    an integer in decimal notation (blanks, an optional sign, one digit at
    least, blanks) within the 32 bits of the type, and refuses any other
    text. *)
Definition int4_in (s : string) : option Z :=
  let s1 := skip_spaces (list_ascii_of_string s) in
  let '(negative, s2) :=
    match s1 with
    | c :: r => if Ascii.eqb c "-" then (true, r)
                else if Ascii.eqb c "+" then (false, r)
                else (false, s1)
    | [] => (false, s1)
    end in
  match s2 with
  | [] => None
  | c :: _ =>
      match digit_of c with
      | None => None
      | Some _ =>
          let '(n, s3) := read_digits 0 s2 in
          let v := if negative : bool then - n else n in
          match skip_spaces s3 with
          | [] => if (-2147483648 <=? v) && (v <=? 2147483647)
                  then Some v else None
          | _ :: _ => None
          end
      end
  end.

(** The integer that the [category] column is compared with for a bound
    value [v]: an integer as it is, a text as the database reads it; a
    boolean, a list or an object makes no comparison with an integer. *)
Definition as_category (v : json) : option Z :=
  match v with
  | JNum n => Some n
  | JStr s => int4_in s
  | _ => None
  end.

(** [Question.query.filter_by(category=v).all()]: [category] is an
    integer column. [None] is rendered as [category IS NULL], which no
    row satisfies; a value that cannot be compared with an integer fails
    the query. *)
Definition filter_by_category (st : Store) (v : json) : result (list Question) :=
  match v with
  | JNull => Ok []
  | _ =>
      match as_category v with
      | Some c => Ok (filter (fun q => q_category q =? c) (questions st))
      | None => Raise StoreError
      end
  end.

(** Modelled from the spec: [Question(question=.., answer=.., category=..,
    difficulty=..)] followed by [.insert()], the store's
    [insertQuestion(fields) -> Question | StoreError]. The store assigns
    the next id of its sequence; values that do not fit the column types
    of the data model are a store error and leave the store as it was. *)
Definition Question_insert (st : Store) (question answer category difficulty : json)
  : result (Question * Store) :=
  match as_text question, as_text answer, as_int category, as_int difficulty with
  | Some q, Some a, Some c, Some d =>
      let row := {| q_id := next_id st; q_question := q; q_answer := a;
                    q_category := c; q_difficulty := d |} in
      Ok (row, {| questions := (questions st ++ [row])%list;
                  categories := categories st;
                  next_id := next_id st + 1 |})
  | _, _, _, _ => Raise StoreError
  end.

(** Modelled from the spec: [question.delete()], the store's
    [deleteQuestion(id)]; the row leaves the table for good and its id is
    not reused. *)
Definition Question_delete (st : Store) (q : Question) : result Store :=
  Ok {| questions := filter (fun r => negb (q_id r =? q_id q)) (questions st);
        categories := categories st;
        next_id := next_id st |}.

(** The invariant the store keeps (spec, sections 3 and 6): question ids
    are positive, strictly ascending in table order and below the
    sequence; category ids are unique. *)
Definition wf_store (st : Store) : Prop :=
  0 < next_id st /\
  StronglySorted Z.lt (map q_id (questions st)) /\
  Forall (fun q => 0 < q_id q < next_id st) (questions st) /\
  NoDup (map c_id (categories st)).

End StoreOps.

(* ================================================================== *)
(** * ILIKE *)
(* ================================================================== *)

(** PostgreSQL's [string ILIKE pattern] with the default escape character:
    [%] matches any run of characters, [_] any single character, a
    backslash makes the next character literal, a pattern that ends in a
    lone backslash is an error; letters match whatever their case. *)
Section ILike.

Inductive tok : Type :=
| TLit (c : ascii)
| TOne
| TAny.

Definition percent : ascii := "%"%char.
Definition underscore : ascii := "_"%char.
Definition backslash : ascii := "\"%char.

Fixpoint tokenize (p : list ascii) : option (list tok) :=
  match p with
  | [] => Some []
  | c :: p' =>
      if Ascii.eqb c backslash then
        match p' with
        | [] => None
        | d :: p'' => option_map (cons (TLit d)) (tokenize p'')
        end
      else if Ascii.eqb c percent then option_map (cons TAny) (tokenize p')
      else if Ascii.eqb c underscore then option_map (cons TOne) (tokenize p')
      else option_map (cons (TLit c)) (tokenize p')
  end.

Definition lower (c : ascii) : ascii :=
  let n := nat_of_ascii c in
  if (Nat.leb 65 n && Nat.leb n 90)%bool then ascii_of_nat (n + 32) else c.

Definition eq_nocase (c d : ascii) : bool := Ascii.eqb (lower c) (lower d).

Fixpoint tmatch (ts : list tok) (s : list ascii) {struct ts} : bool :=
  match ts with
  | [] => match s with [] => true | _ => false end
  | TLit c :: ts' =>
      match s with
      | d :: s' => eq_nocase c d && tmatch ts' s'
      | [] => false
      end
  | TOne :: ts' =>
      match s with
      | _ :: s' => tmatch ts' s'
      | [] => false
      end
  | TAny :: ts' =>
      (fix star (s : list ascii) : bool :=
         tmatch ts' s || match s with
                         | [] => false
                         | _ :: s' => star s'
                         end) s
  end.

(** [text ILIKE pattern] *)
Definition ilike (text pattern : string) : result bool :=
  match tokenize (list_ascii_of_string pattern) with
  | Some ts => Ok (tmatch ts (list_ascii_of_string text))
  | None => Raise StoreError
  end.

(** [query.filter(cond).all()]: the rows that satisfy [cond], in table
    order; an error on a row fails the query. *)
Fixpoint query_filter {A} (cond : A -> result bool) (rows : list A) : result (list A) :=
  match rows with
  | [] => Ok []
  | r :: rest =>
      b <- cond r;;
      kept <- query_filter cond rest;;
      Ok (if b then r :: kept else kept)
  end.

End ILike.

(* ================================================================== *)
(** * [random.randint] *)
(* ================================================================== *)

(** The generator is a tape of entropy and a cursor. [randint(a, b)] reads
    one cell and maps it into the closed range [a..b]; an empty range is a
    [ValueError]. *)
Record rng : Type := {
  entropy : nat -> Z;
  cursor : nat
}.

Definition randint (a b : Z) (g : rng) : result (Z * rng) :=
  if b <? a then Raise ValueError
  else Ok (a + entropy g (cursor g) mod (b - a + 1),
           {| entropy := entropy g; cursor := S (cursor g) |}).

(* ================================================================== *)
(** * The handlers of [create_app] *)
(* ================================================================== *)

Record response : Type := {
  status : Z;
  body : json
}.

(** [jsonify(d)], and [jsonify(d), code]. *)
Definition jsonify (code : Z) (d : list (string * json)) : response :=
  {| status := code; body := JObj d |}.

Section Handlers.

(** [{category.id: category.type for category in categories}], its
    integer keys turned into strings by [jsonify]. *)
Definition categories_dict (cs : list Category) : json :=
  JObj (fold_left
          (fun d c => dict_set d (str_of_int (c_id c)) (JStr (c_type c)))
          cs []).

Definition len {A} (l : list A) : Z := Z.of_nat (List.length l).

(** [GET /categories] *)
Definition get_categories (st : Store) : result response :=
  let categories := Category_query_all st in
  if len categories =? 0 then abort 404
  else Ok (jsonify 200 [("success", JBool true);
                        ("categories", categories_dict categories)]).

(** [GET /questions]; [page_arg] is [request.args.get('page', type=int)],
    [None] when the argument is absent or is not an integer. *)
Definition get_questions (st : Store) (page_arg : option Z) : result response :=
  let page := match page_arg with Some p => p | None => 1 end in
  current_questions <- paginate (order_by_id (Question_query_all st)) page 10;;
  let categories := Category_query_all st in
  if len current_questions =? 0 then abort 404
  else Ok (jsonify 200
             [("success", JBool true);
              ("questions", JList (map format current_questions));
              ("total_questions", JNum (len (Question_query_all st)));
              ("current_category", JNull);
              ("categories", categories_dict categories)]).

(** [DELETE /questions/<int:question_id>] *)
Definition delete_question (st : Store) (question_id : Z) : Store * result response :=
  let attempt : Store * result response :=
    match Question_query_get st question_id with
    | None => (st, abort 404)
    | Some question =>
        match Question_delete st question with
        | Ok st' => (st', Ok (jsonify 200 [("success", JBool true);
                                           ("deleted", JNum question_id)]))
        | Raise e => (st, Raise e)
        end
    end in
  (fst attempt, try_except (snd attempt) (abort 422)).

(** [POST /questions] *)
Definition create_question (st : Store) (data : json) : Store * result response :=
  let fields :=
    question_body <- subscript data "question";;
    question_answer <- subscript data "answer";;
    question_category <- subscript data "category";;
    question_difficulty <- subscript data "difficulty";;
    Ok (question_body, question_answer, question_category, question_difficulty) in
  match fields with
  | Raise e => (st, Raise e)
  | Ok (question_body, question_answer, question_category, question_difficulty) =>
      if is_None question_body || is_None question_answer
         || is_None question_category || is_None question_difficulty
      then (st, abort 422)
      else
        let attempt : Store * result response :=
          match Question_insert st question_body question_answer
                                question_category question_difficulty with
          | Ok (new_question, st') =>
              (st', Ok (jsonify 201
                          [("success", JBool true);
                           ("created", JNum (q_id new_question));
                           ("message",
                            JStr "The question has been successfully created!")]))
          | Raise e => (st, Raise e)
          end in
        (fst attempt, try_except (snd attempt) (abort 422))
  end.

(** [POST /questions/search] *)
Definition question_search (st : Store) (data : json) : result response :=
  search_term <- dict_get data "searchTerm";;
  if truthy search_term then
    questions <- query_filter
                   (fun q => ilike (q_question q) ("%" ++ py_str search_term ++ "%"))
                   (Question_query_all st);;
    Ok (jsonify 200 [("success", JBool true);
                     ("questions", JList (map format questions));
                     ("totalQuestions", JNum (len questions));
                     ("current_category", JNull)])
  else abort 404.

(** [GET /categories/<int:category_id>/questions] *)
Definition get_questions_by_category (st : Store) (category_id : Z) : result response :=
  category <- one_or_none
                (filter (fun c => c_id c =? category_id) (Category_query_all st));;
  match category with
  | None => abort 404
  | Some category =>
      let questions := filter (fun q => q_category q =? category_id)
                              (Question_query_all st) in
      Ok (jsonify 200 [("success", JBool true);
                       ("questions", JList (map format questions));
                       ("total_questions", JNum (len questions));
                       ("current_category", JStr (c_type category))])
  end.

(** [POST /quizzes] *)
Definition set_quiz (st : Store) (g : rng) (data : json) : result response :=
  try_except
    (category <- subscript data "quiz_category";;
     prev_questions <- subscript data "previous_questions";;
     (if is_None category || is_None prev_questions then abort 422 else Ok tt);;;
     category_id <- subscript category "id";;
     quiz_questions <- (if py_eq_int category_id 0
                        then Ok (Question_query_all st)
                        else filter_by_category st category_id);;
     '(i, g1) <- randint 0 (len quiz_questions - 1) g;;
     next_question <- list_getitem quiz_questions i;;
     seen <- py_in_int (q_id next_question) prev_questions;;
     next_question <- (if seen : bool
                       then '(j, _) <- randint 0 (len quiz_questions - 1) g1;;
                            list_getitem quiz_questions j
                       else Ok next_question);;
     Ok (jsonify 200 [("success", JBool true);
                      ("question", format next_question)]))
    (abort 422).

(** The registered error handlers. *)
Definition error_response (code : Z) (message : string) : response :=
  jsonify code [("success", JBool false);
                ("error", JNum code);
                ("message", JStr message)].

Definition not_found : response := error_response 404 "Not Found".
Definition unprocessable_entity : response := error_response 422 "Unprocessable Entity".
Definition bad_request : response := error_response 400 "Bad Request".
Definition method_not_allowed : response := error_response 405 "Method Not Allowed".
Definition internal_serve_error : response := error_response 500 "Internal Server Error".

(** What Flask makes of a handler's outcome: an [HTTPException] goes to
    the handler registered for its code (or to the framework's own page,
    which is not JSON); any other exception is an internal server
    error. *)
Definition handle_exception (e : exn) : response :=
  match e with
  | HTTPException code =>
      if code =? 404 then not_found
      else if code =? 422 then unprocessable_entity
      else if code =? 400 then bad_request
      else if code =? 405 then method_not_allowed
      else if code =? 500 then internal_serve_error
      else {| status := code; body := JNull |}
  | _ => internal_serve_error
  end.

Definition respond (r : result response) : response :=
  match r with
  | Ok resp => resp
  | Raise e => handle_exception e
  end.

End Handlers.

(* ================================================================== *)
(** * The handlers from the request body *)
(* ================================================================== *)

(** The body of a request sent as JSON: text that does not parse, or the
    value it parses to. *)
Inductive payload : Type :=
| Malformed
| Parsed (data : json).

(** [request.get_json()]: a body that does not parse raises
    [BadRequest], which is [abort(400)]. *)
Definition get_json (b : payload) : result json :=
  match b with
  | Malformed => abort 400
  | Parsed data => Ok data
  end.

(** [create_question()] from its first line: [request.get_json()] is
    called at line 103, outside any [try]. *)
Definition create_question_view (st : Store) (b : payload) : Store * result response :=
  match get_json b with
  | Ok data => create_question st data
  | Raise e => (st, Raise e)
  end.

(** [question_search()] from its first line: [request.get_json()] is
    called at line 132, outside any [try]. *)
Definition question_search_view (st : Store) (b : payload) : result response :=
  data <- get_json b;;
  question_search st data.

(** [set_quiz()] from its first line: [request.get_json()] is called at
    line 178, inside the [try] whose bare [except] aborts with 422. *)
Definition set_quiz_view (st : Store) (g : rng) (b : payload) : result response :=
  try_except (data <- get_json b;; set_quiz st g data) (abort 422).

(* ================================================================== *)
(** * Sample data *)
(* ================================================================== *)

Definition mk_question (i : Z) (text : string) (c : Z) : Question :=
  {| q_id := i; q_question := text; q_answer := "42"; q_category := c; q_difficulty := 1 |}.

Definition sample_categories : list Category :=
  [{| c_id := 1; c_type := "Science" |};
   {| c_id := 2; c_type := "Art" |};
   {| c_id := 3; c_type := "Geography" |}].

(** Twelve questions, all in categories 1 and 2; category 3 has none. *)
Definition sample_store : Store :=
  {| questions :=
       [mk_question 1 "What is 100% certain?" 1;
        mk_question 2 "Who painted the Mona Lisa?" 2;
        mk_question 3 "What is the heaviest organ?" 1;
        mk_question 4 "snake_case or camelCase?" 1;
        mk_question 5 "Which artist cut off an ear?" 2;
        mk_question 6 "What boils at 100 degrees?" 1;
        mk_question 7 "Who discovered penicillin?" 1;
        mk_question 8 "Who sculpted David?" 2;
        mk_question 9 "What is the speed of light?" 1;
        mk_question 10 "What is H2O?" 1;
        mk_question 11 "Who painted Guernica?" 2;
        mk_question 12 "What is a quark?" 1];
     categories := sample_categories;
     next_id := 13 |}.

(** A store with two questions of one category. *)
Definition small_store : Store :=
  {| questions := [mk_question 1 "First?" 1; mk_question 2 "Second?" 1];
     categories := sample_categories;
     next_id := 3 |}.

(** A generator whose tape is all zeros. *)
Definition zero_rng : rng := {| entropy := fun _ => 0; cursor := 0%nat |}.

(** The body the front end posts to [/quizzes]. *)
Definition quiz_request (category_id : Z) (category_type : string) (asked : list Z) : json :=
  JObj [("previous_questions", JList (map JNum asked));
        ("quiz_category", JObj [("id", JNum category_id);
                                ("type", JStr category_type)])].

(** The pool of a quiz as the specification words it (section 4.3): every
    question when the category filter is 0, the questions of that category
    otherwise. *)
Definition quiz_pool (st : Store) (category_id : Z) : list Question :=
  if category_id =? 0 then questions st
  else filter (fun q => q_category q =? category_id) (questions st).

(** A generator whose tape holds [n] in every cell. *)
Definition const_rng (n : Z) : rng := {| entropy := fun _ => n; cursor := 0%nat |}.

(** The body the front end posts to [/questions/search]. *)
Definition search_request (term : string) : json := JObj [("searchTerm", JStr term)].

(** The successful answer of a search that found [found]. *)
Definition search_response (found : list Question) : response :=
  jsonify 200 [("success", JBool true);
               ("questions", JList (map format found));
               ("totalQuestions", JNum (len found));
               ("current_category", JNull)].

(** Case-insensitive substring containment, the matcher as the
    specification words it (section 4.2): [term] occurs in [text] when the
    letters of one are compared with the letters of the other whatever
    their case. *)
Fixpoint prefix_nocase (t s : list ascii) : bool :=
  match t, s with
  | [], _ => true
  | _ :: _, [] => false
  | c :: t', d :: s' => eq_nocase c d && prefix_nocase t' s'
  end.

Fixpoint occurs_nocase (t s : list ascii) : bool :=
  prefix_nocase t s || match s with
                       | [] => false
                       | _ :: s' => occurs_nocase t s'
                       end.

Definition contains_nocase (term text : string) : bool :=
  occurs_nocase (list_ascii_of_string term) (list_ascii_of_string text).

(** The characters ILIKE gives a meaning of their own. *)
Definition is_wildcard (c : ascii) : bool :=
  Ascii.eqb c percent || Ascii.eqb c underscore.

Definition is_special (c : ascii) : bool :=
  Ascii.eqb c backslash || is_wildcard c.




(** ** ILIKE as the PostgreSQL manual states it

    A relation written from the manual and not from the matcher: an
    underscore in the pattern stands for any single character, a percent
    sign for any run of zero or more characters, a backslash takes the
    character after it literally, any other character stands for itself,
    and the whole pattern has to cover the whole text. ILIKE compares
    letters whatever their case. *)

Definition upper_letters : list ascii :=
  list_ascii_of_string "ABCDEFGHIJKLMNOPQRSTUVWXYZ".

Definition lower_letters : list ascii :=
  list_ascii_of_string "abcdefghijklmnopqrstuvwxyz".

(** The same character, or the upper and the lower case of one letter. *)
Inductive same_letter : ascii -> ascii -> Prop :=
| same_char c : same_letter c c
| upper_lower i u l :
    nth_error upper_letters i = Some u ->
    nth_error lower_letters i = Some l ->
    same_letter u l
| lower_upper i u l :
    nth_error upper_letters i = Some u ->
    nth_error lower_letters i = Some l ->
    same_letter l u.

(** [like_match pattern text] *)
Inductive like_match : list ascii -> list ascii -> Prop :=
| like_end : like_match [] []
| like_percent p run rest :
    like_match p rest ->
    like_match (percent :: p) (run ++ rest)
| like_underscore p d rest :
    like_match p rest ->
    like_match (underscore :: p) (d :: rest)
| like_escaped p c d rest :
    same_letter c d ->
    like_match p rest ->
    like_match (backslash :: c :: p) (d :: rest)
| like_literal p c d rest :
    is_special c = false ->
    same_letter c d ->
    like_match p rest ->
    like_match (c :: p) (d :: rest).



(** The successful answer of [get_questions] for a page holding [items]. *)
Definition questions_response (st : Store) (items : list Question) : response :=
  jsonify 200 [("success", JBool true);
               ("questions", JList (map format items));
               ("total_questions", JNum (len (questions st)));
               ("current_category", JNull);
               ("categories", categories_dict (categories st))].

(** The successful answer of [get_questions_by_category]. *)
Definition category_response (c : Category) (found : list Question) : response :=
  jsonify 200 [("success", JBool true);
               ("questions", JList (map format found));
               ("total_questions", JNum (len found));
               ("current_category", JStr (c_type c))].

(** The successful answer of [set_quiz]. *)
Definition quiz_response (q : Question) : response :=
  jsonify 200 [("success", JBool true); ("question", format q)].

(** The successful answer of [create_question]. *)
Definition created_response (id : Z) : response :=
  jsonify 201 [("success", JBool true);
               ("created", JNum id);
               ("message", JStr "The question has been successfully created!")].

(** The successful answer of [delete_question]. *)
Definition deleted_response (id : Z) : response :=
  jsonify 200 [("success", JBool true); ("deleted", JNum id)].

(** The body the front end posts to [/questions]. *)
Definition create_request (question answer category difficulty : json) : json :=
  JObj [("question", question); ("answer", answer);
        ("category", category); ("difficulty", difficulty)].

(** A text without the escape character of ILIKE. *)
Definition no_backslash (text : string) : bool :=
  negb (existsb (Ascii.eqb backslash) (list_ascii_of_string text)).

(** A token with its literal in lower case. *)
Definition tok_lower (t : tok) : tok :=
  match t with
  | TLit c => TLit (lower c)
  | TOne => TOne
  | TAny => TAny
  end.

(** Two terms that differ in the case of their letters at most. *)
Definition same_nocase (t1 t2 : string) : Prop :=
  map lower (list_ascii_of_string t1) = map lower (list_ascii_of_string t2).

(** An answer of the API with one of the status codes [codes]: a JSON
    object whose [success] field tells whether the status is below 300. *)
Definition api_answer (codes : list Z) (r : response) : Prop :=
  In (status r) codes /\
  exists d, body r = JObj d /\
            dict_lookup d "success" = Some (JBool (status r <? 300)).

(* ================================================================== *)
(** * Pagination *)
(* ================================================================== *)

Section Pagination.

Lemma insert_by_id_perm q l : Permutation (q :: l) (insert_by_id q l).
Proof.
  induction l as [|r rest IH]; simpl.
  - apply Permutation_refl.
  - destruct (q_id q <=? q_id r).
    + apply Permutation_refl.
    + apply perm_trans with (r :: q :: rest).
      * apply perm_swap.
      * apply perm_skip, IH.
Qed.

Lemma order_by_id_perm l : Permutation l (order_by_id l).
Proof.
  induction l as [|q rest IH]; simpl.
  - apply perm_nil.
  - apply perm_trans with (q :: order_by_id rest).
    + apply perm_skip, IH.
    + apply insert_by_id_perm.
Qed.



Lemma order_by_id_length l : List.length (order_by_id l) = List.length l.
Proof. symmetry. apply Permutation_length, order_by_id_perm. Qed.


Lemma limit_offset_in_range {A} (rows : list A) (page : Z) :
  1 <= page -> (page - 1) * 10 <= max_bigint ->
  limit_offset 10 ((page - 1) * 10) rows = Ok (slice_rows 10 ((page - 1) * 10) rows).
Proof.
  intros Hp Hmax. unfold limit_offset.
  change (10 <? 0) with false. change (max_bigint <? 10) with false.
  destruct ((page - 1) * 10 <? 0) eqn:E1; [lia|].
  destruct (max_bigint <? (page - 1) * 10) eqn:E2; [lia|]. reflexivity.
Qed.

(** An offset beyond the [bigint] range: the database refuses the query. *)
Lemma paginate_out_of_range {A} (rows : list A) (page : Z) :
  max_bigint < (page - 1) * 10 ->
  paginate rows page 10 = Raise StoreError.
Proof.
  intros Hmax. unfold paginate, limit_offset, max_bigint in *.
  destruct (page <? 1) eqn:E; [lia|].
  change (10 <? 0) with false.
  destruct (9223372036854775807 <? (page - 1) * 10) eqn:E2; [|lia].
  rewrite !orb_true_r. reflexivity.
Qed.

Lemma len_zero_nil {A} (l : list A) : len l = 0 <-> l = [].
Proof.
  unfold len. destruct l; simpl; split; intros H; try reflexivity; try lia; discriminate.
Qed.

(** [paginate] for a page in range of the request: the slice, or a 404
    for an empty page other than the first. *)
Lemma paginate_slice {A} (rows : list A) (page : Z) :
  1 <= page ->
  (page - 1) * 10 <= max_bigint ->
  paginate rows page 10 =
    let items := slice_rows 10 ((page - 1) * 10) rows in
    if (len items =? 0) && negb (page =? 1) then abort 404 else Ok items.
Proof.
  intros Hp Hmax. unfold paginate.
  destruct (page <? 1) eqn:E; [lia|].
  change (10 <? 0) with false. cbv iota.
  rewrite (limit_offset_in_range rows page Hp Hmax). cbn [bind]. cbv zeta.
  destruct (slice_rows 10 ((page - 1) * 10) rows) as [|x xs]; simpl.
  - destruct (page =? 1); reflexivity.
  - reflexivity.
Qed.

End Pagination.




(* ================================================================== *)
(** * Questions of a category *)
(* ================================================================== *)

Section ByCategory.

Lemma filter_nil_iff {A} (f : A -> bool) (l : list A) :
  filter f l = [] <-> forall x, In x l -> f x = false.
Proof.
  induction l as [|a l IH]; simpl.
  - split; [intros _ x []|reflexivity].
  - destruct (f a) eqn:Ha.
    + split; [discriminate|]. intros H. specialize (H a (or_introl eq_refl)). congruence.
    + rewrite IH. split.
      * intros H x [->|Hx]; [exact Ha|apply H, Hx].
      * intros H x Hx. apply H. right. exact Hx.
Qed.

Lemma category_absent_iff (cs : list Category) (cid : Z) :
  filter (fun c => c_id c =? cid) cs = [] <-> ~ In cid (map c_id cs).
Proof.
  rewrite filter_nil_iff, in_map_iff. split.
  - intros H [c [Hid Hin]]. specialize (H c Hin). lia.
  - intros H c Hin. destruct (c_id c =? cid) eqn:E; [|reflexivity].
    exfalso. apply H. exists c. split; [lia|exact Hin].
Qed.

(** With unique ids, selecting a category by its id yields that one row. *)
Lemma filter_unique_category (cs : list Category) (c : Category) :
  NoDup (map c_id cs) -> In c cs ->
  filter (fun r => c_id r =? c_id c) cs = [c].
Proof.
  induction cs as [|r rest IH]; simpl; intros Hnd Hin; [contradiction|].
  inversion Hnd as [|? ? Hnotin Hnd']; subst.
  destruct Hin as [->|Hin].
  - rewrite Z.eqb_refl. f_equal.
    apply filter_nil_iff. intros x Hx.
    destruct (c_id x =? c_id c) eqn:E; [|reflexivity].
    exfalso. apply Hnotin. apply in_map_iff. exists x. split; [lia|exact Hx].
  - destruct (c_id r =? c_id c) eqn:E.
    + exfalso. apply Hnotin. apply in_map_iff. exists c. split; [lia|exact Hin].
    + apply IH; assumption.
Qed.

End ByCategory.

(** C7 (category with zero questions). [get_questions_by_category]
    answers 404 exactly when no category has the requested id; for a
    category that exists (ids being unique) and has no question it answers
    200 with an empty list of questions and the category's display name
    as current category. *)
Theorem get_questions_by_category_no_questions (st : Store) (category_id : Z) :
  (get_questions_by_category st category_id = abort 404
   <-> ~ In category_id (map c_id (categories st))) /\
  (forall c : Category,
     NoDup (map c_id (categories st)) ->
     In c (categories st) ->
     c_id c = category_id ->
     (forall q, In q (questions st) -> q_category q <> category_id) ->
     get_questions_by_category st category_id =
       Ok (jsonify 200 [("success", JBool true);
                        ("questions", JList []);
                        ("total_questions", JNum 0);
                        ("current_category", JStr (c_type c))])).
Proof.
  split.
  - rewrite <- category_absent_iff.
    unfold get_questions_by_category, Category_query_all.
    destruct (filter (fun c => c_id c =? category_id) (categories st))
      as [|r [|r' rest]]; simpl; split; intros H;
      try reflexivity; try discriminate H.
  - intros c Hnd Hin Hid Hnone.
    unfold get_questions_by_category, Category_query_all, Question_query_all.
    subst category_id. rewrite (filter_unique_category _ c Hnd Hin). simpl.
    assert (Hq : filter (fun q => q_category q =? c_id c) (questions st) = []).
    { apply filter_nil_iff. intros q Hq. specialize (Hnone q Hq). lia. }
    rewrite Hq. reflexivity.
Qed.

(** Category 3 of the sample store exists and has no question. *)
Lemma get_questions_by_category_no_questions_witness :
  get_questions_by_category sample_store 3 =
    Ok (jsonify 200 [("success", JBool true);
                     ("questions", JList []);
                     ("total_questions", JNum 0);
                     ("current_category", JStr "Geography")]).
Proof.
  apply (proj2 (get_questions_by_category_no_questions sample_store 3)
           {| c_id := 3; c_type := "Geography" |}).
  - simpl. repeat constructor; simpl; intuition discriminate.
  - simpl. auto.
  - reflexivity.
  - intros q Hq. simpl in Hq.
    repeat (destruct Hq as [<-|Hq]; [simpl; discriminate|]). contradiction.
Defined.

(* ================================================================== *)
(** * Deleting and creating *)
(* ================================================================== *)

Section Mutations.

Lemma find_none_iff (rows : list Question) (id : Z) :
  find (fun q => q_id q =? id) rows = None <-> ~ In id (map q_id rows).
Proof.
  induction rows as [|r rest IH]; simpl.
  - split; [intros _ []|reflexivity].
  - destruct (q_id r =? id) eqn:E.
    + split; [discriminate|]. intros H. exfalso. apply H. left. lia.
    + rewrite IH. split.
      * intros H [Heq|Hin]; [lia|exact (H Hin)].
      * intros H Hin. apply H. right. exact Hin.
Qed.

Lemma find_some_id (rows : list Question) (id : Z) (q : Question) :
  find (fun q => q_id q =? id) rows = Some q -> q_id q = id.
Proof.
  intros H. apply find_some in H. destruct H as [_ H]. lia.
Qed.

Lemma filter_out_absent (rows : list Question) (id : Z) :
  ~ In id (map q_id rows) ->
  filter (fun r => negb (q_id r =? id)) rows = rows.
Proof.
  induction rows as [|r rest IH]; simpl; intros H; [reflexivity|].
  destruct (q_id r =? id) eqn:E; simpl.
  - exfalso. apply H. left. lia.
  - f_equal. apply IH. intros Hin. apply H. right. exact Hin.
Qed.

Lemma filter_out_gone (rows : list Question) (id : Z) :
  ~ In id (map q_id (filter (fun r => negb (q_id r =? id)) rows)).
Proof.
  intros Hin. apply in_map_iff in Hin. destruct Hin as [q [Hid Hq]].
  apply filter_In in Hq. destruct Hq as [_ Hq].
  destruct (q_id q =? id) eqn:E; [discriminate|lia].
Qed.

(** Ids below the sequence: the next id is fresh. *)
Lemma next_id_fresh (st : Store) :
  wf_store st -> ~ In (next_id st) (map q_id (questions st)).
Proof.
  intros [_ [_ [Hbound _]]] Hin.
  apply in_map_iff in Hin. destruct Hin as [q [Hid Hq]].
  rewrite Forall_forall in Hbound. specialize (Hbound q Hq). lia.
Qed.

(** What [delete_question] does to the table, whatever the id. *)
Lemma delete_question_run (st : Store) (id : Z) :
  delete_question st id =
    match Question_query_get st id with
    | None => (st, abort 422)
    | Some _ =>
        ({| questions := filter (fun r => negb (q_id r =? id)) (questions st);
            categories := categories st;
            next_id := next_id st |},
         Ok (jsonify 200 [("success", JBool true); ("deleted", JNum id)]))
    end.
Proof.
  unfold delete_question.
  destruct (Question_query_get st id) as [q|] eqn:Hget; simpl; [|reflexivity].
  unfold Question_query_get in Hget. apply find_some_id in Hget.
  rewrite Hget. reflexivity.
Qed.

(** What [create_question] does once the four keys are there. *)
Lemma create_question_run (st : Store) (data q a c d : json) :
  subscript data "question" = Ok q ->
  subscript data "answer" = Ok a ->
  subscript data "category" = Ok c ->
  subscript data "difficulty" = Ok d ->
  create_question st data =
    if is_None q || is_None a || is_None c || is_None d then (st, abort 422)
    else match Question_insert st q a c d with
         | Ok (new_question, st') =>
             (st', Ok (jsonify 201
                         [("success", JBool true);
                          ("created", JNum (q_id new_question));
                          ("message",
                           JStr "The question has been successfully created!")]))
         | Raise _ => (st, abort 422)
         end.
Proof.
  intros Hq Ha Hc Hd. unfold create_question.
  rewrite Hq, Ha, Hc, Hd. simpl.
  destruct (is_None q || is_None a || is_None c || is_None d); [reflexivity|].
  destruct (Question_insert st q a c d) as [[nq st']|e]; reflexivity.
Qed.

Lemma Question_insert_ok (st : Store) (q a c d : json) (row : Question) (st' : Store) :
  Question_insert st q a c d = Ok (row, st') ->
  q_id row = next_id st /\
  questions st' = (questions st ++ [row])%list /\
  categories st' = categories st /\
  next_id st' = next_id st + 1.
Proof.
  unfold Question_insert.
  destruct (as_text q), (as_text a), (as_int c), (as_int d); try discriminate.
  intros H. inversion H; subst. simpl. auto.
Qed.

End Mutations.

(** C8 (delete of an absent id). For an id that no question has,
    [delete_question] leaves the store as it is and fails with 422, the
    [abort(404)] of the handler being caught by its own [except]; for an
    id that a question has, it answers 200 and reports that id as deleted,
    and the question is gone. *)
Theorem delete_question_absent_present (st : Store) (question_id : Z) :
  (~ In question_id (map q_id (questions st)) ->
   delete_question st question_id = (st, abort 422) /\
   respond (snd (delete_question st question_id)) = unprocessable_entity /\
   respond (snd (delete_question st question_id)) <> not_found) /\
  (In question_id (map q_id (questions st)) ->
   exists st',
     delete_question st question_id =
       (st', Ok (jsonify 200 [("success", JBool true);
                              ("deleted", JNum question_id)])) /\
     ~ In question_id (map q_id (questions st')) /\
     (forall q, In q (questions st') <->
                In q (questions st) /\ q_id q <> question_id)).
Proof.
  rewrite delete_question_run. unfold Question_query_get. split.
  - intros Habsent. apply find_none_iff in Habsent. rewrite Habsent. simpl.
    repeat split. discriminate.
  - intros Hpresent.
    destruct (find (fun q => q_id q =? question_id) (questions st)) as [q|] eqn:Hfind.
    + eexists. split; [reflexivity|]. simpl. split.
      * apply filter_out_gone.
      * intros r. rewrite filter_In. split.
        -- intros [Hin Hne]. split; [exact Hin|].
           destruct (q_id r =? question_id) eqn:E; [discriminate|lia].
        -- intros [Hin Hne]. split; [exact Hin|].
           destruct (q_id r =? question_id) eqn:E; [lia|reflexivity].
    + apply find_none_iff in Hfind. contradiction.
Qed.

(** Question 10000 is not in the sample store; question 2 is. *)
Lemma delete_question_absent_present_witness :
  delete_question sample_store 10000 = (sample_store, abort 422) /\
  snd (delete_question sample_store 2) =
    Ok (jsonify 200 [("success", JBool true); ("deleted", JNum 2)]).
Proof.
  split.
  - apply (proj1 (delete_question_absent_present sample_store 10000)).
    simpl. intuition discriminate.
  - destruct (proj2 (delete_question_absent_present sample_store 2)) as [st' [H _]].
    + simpl. auto.
    + rewrite H. reflexivity.
Defined.

Section RoundTrip.

Lemma create_question_ok_inv (st st1 : Store) (data : json) (resp : response) :
  create_question st data = (st1, Ok resp) ->
  exists q a c d row,
    Question_insert st q a c d = Ok (row, st1) /\
    resp = jsonify 201
             [("success", JBool true);
              ("created", JNum (q_id row));
              ("message", JStr "The question has been successfully created!")].
Proof.
  unfold create_question.
  destruct (subscript data "question") as [q|]; simpl; [|discriminate].
  destruct (subscript data "answer") as [a|]; simpl; [|discriminate].
  destruct (subscript data "category") as [c|]; simpl; [|discriminate].
  destruct (subscript data "difficulty") as [d|]; simpl; [|discriminate].
  destruct (is_None q || is_None a || is_None c || is_None d); [discriminate|].
  destruct (Question_insert st q a c d) as [[row st']|e] eqn:Hins; simpl;
    [|discriminate].
  intros H. inversion H; subst. exists q, a, c, d, row. auto.
Qed.

Lemma find_app_fresh (rows : list Question) (row : Question) :
  ~ In (q_id row) (map q_id rows) ->
  find (fun q => q_id q =? q_id row) (rows ++ [row]) = Some row.
Proof.
  induction rows as [|r rest IH]; simpl; intros H.
  - rewrite Z.eqb_refl. reflexivity.
  - destruct (q_id r =? q_id row) eqn:E.
    + exfalso. apply H. left. lia.
    + apply IH. intros Hin. apply H. right. exact Hin.
Qed.

Lemma filter_app_fresh (rows : list Question) (row : Question) :
  ~ In (q_id row) (map q_id rows) ->
  filter (fun r => negb (q_id r =? q_id row)) (rows ++ [row]) = rows.
Proof.
  intros H. rewrite filter_app, filter_out_absent by exact H.
  simpl. rewrite Z.eqb_refl. simpl. apply app_nil_r.
Qed.

End RoundTrip.

Section Invariant.

Lemma filter_sorted (f : Question -> bool) (rows : list Question) :
  StronglySorted Z.lt (map q_id rows) ->
  StronglySorted Z.lt (map q_id (filter f rows)).
Proof.
  induction rows as [|r rest IH]; simpl; intros H; [constructor|].
  inversion H as [|? ? Hrest Hall]; subst.
  destruct (f r); simpl; [|apply IH, Hrest].
  constructor; [apply IH, Hrest|].
  rewrite Forall_forall in *. intros x Hx. apply Hall.
  apply in_map_iff in Hx. destruct Hx as [q [Hq Hin]].
  apply filter_In in Hin. apply in_map_iff. exists q. tauto.
Qed.

Lemma sorted_snoc (ids : list Z) (n : Z) :
  StronglySorted Z.lt ids -> Forall (fun i => i < n) ids ->
  StronglySorted Z.lt (ids ++ [n]).
Proof.
  induction ids as [|i ids IH]; simpl; intros Hs Hb.
  - repeat constructor.
  - inversion Hs as [|? ? Hs' Hall]; subst.
    inversion Hb as [|? ? Hi Hb']; subst.
    constructor; [apply IH; assumption|].
    apply Forall_app. split; [exact Hall|]. repeat constructor. exact Hi.
Qed.

(** The handlers keep the invariant of the store. *)
Lemma create_question_keeps_wf (st : Store) (data : json) :
  wf_store st -> wf_store (fst (create_question st data)).
Proof.
  intros Hwf. destruct (create_question st data) as [st1 [resp|e]] eqn:Hrun.
  - apply create_question_ok_inv in Hrun.
    destruct Hrun as [q [a [c [d [row [Hins _]]]]]].
    apply Question_insert_ok in Hins. destruct Hins as [Hid [Hqs [Hcs Hnext]]].
    destruct Hwf as [Hpos [Hsorted [Hbound Hnd]]].
    unfold wf_store. simpl. rewrite Hqs, Hcs, Hnext.
    split; [lia|]. split; [|split].
    + rewrite map_app. simpl. apply sorted_snoc; [exact Hsorted|].
      rewrite Forall_map, Hid. eapply Forall_impl; [|exact Hbound].
      simpl. intros; lia.
    + apply Forall_app. split.
      * eapply Forall_impl; [|exact Hbound]. simpl. intros; lia.
      * repeat constructor; lia.
    + exact Hnd.
  - replace st1 with st; [exact Hwf|].
    unfold create_question in Hrun.
    destruct (subscript data "question") as [v1|]; simpl in Hrun; [|congruence].
    destruct (subscript data "answer") as [v2|]; simpl in Hrun; [|congruence].
    destruct (subscript data "category") as [v3|]; simpl in Hrun; [|congruence].
    destruct (subscript data "difficulty") as [v4|]; simpl in Hrun; [|congruence].
    destruct (is_None v1 || is_None v2 || is_None v3 || is_None v4); [congruence|].
    destruct (Question_insert st v1 v2 v3 v4) as [[row st']|e']; simpl in Hrun;
      congruence.
Qed.

Lemma delete_question_keeps_wf (st : Store) (id : Z) :
  wf_store st -> wf_store (fst (delete_question st id)).
Proof.
  intros Hwf. rewrite delete_question_run.
  destruct (Question_query_get st id) as [found|]; [|exact Hwf].
  destruct Hwf as [Hpos [Hsorted [Hbound Hnd]]].
  unfold wf_store. simpl. split; [exact Hpos|]. split; [|split].
  - apply filter_sorted, Hsorted.
  - rewrite Forall_forall in *. intros r Hr. apply Hbound.
    apply filter_In in Hr. tauto.
  - exact Hnd.
Qed.

End Invariant.

(** C6 (create then delete). When [create_question] succeeds on a store
    that keeps its ids below its sequence, the answer is a 201 that names
    the created id, the table has one more question, and
    [delete_question] of that id succeeds and leaves the table as it was
    before the create, so the count of questions is the one before the
    create. When the four keys are there and [category] is null,
    [create_question] fails with 422 and leaves the store as it was. *)
Theorem create_delete_round_trip (st : Store) (data : json) :
  (forall st1 resp,
     wf_store st ->
     create_question st data = (st1, Ok resp) ->
     let created := next_id st in
     resp = jsonify 201
              [("success", JBool true);
               ("created", JNum created);
               ("message", JStr "The question has been successfully created!")] /\
     len (questions st1) = len (questions st) + 1 /\
     exists st2,
       delete_question st1 created =
         (st2, Ok (jsonify 200 [("success", JBool true); ("deleted", JNum created)])) /\
       questions st2 = questions st /\
       len (questions st2) = len (questions st)) /\
  (forall q a d,
     subscript data "question" = Ok q ->
     subscript data "answer" = Ok a ->
     subscript data "category" = Ok JNull ->
     subscript data "difficulty" = Ok d ->
     create_question st data = (st, abort 422) /\
     respond (snd (create_question st data)) = unprocessable_entity).
Proof.
  split.
  - intros st1 resp Hwf Hcreate created.
    apply create_question_ok_inv in Hcreate.
    destruct Hcreate as [q [a [c [d [row [Hins Hresp]]]]]].
    apply Question_insert_ok in Hins.
    destruct Hins as [Hid [Hqs [Hcs Hnext]]].
    pose proof (next_id_fresh st Hwf) as Hfresh.
    rewrite <- Hid in Hfresh.
    split; [rewrite Hresp, Hid; reflexivity|].
    split; [unfold len; rewrite Hqs, length_app; simpl; lia|].
    rewrite delete_question_run. unfold Question_query_get, created.
    rewrite Hqs, <- Hid, (find_app_fresh _ _ Hfresh).
    eexists. split; [reflexivity|]. simpl.
    rewrite (filter_app_fresh _ _ Hfresh). split; reflexivity.
  - intros q a d Hq Ha Hc Hd.
    rewrite (create_question_run st data q a JNull d Hq Ha Hc Hd).
    simpl. rewrite !orb_true_r. simpl. split; reflexivity.
Qed.

(** On the sample store: a question is created with id 13 and deleted
    again, leaving twelve; a body whose category is null is refused. *)
Lemma create_delete_round_trip_witness :
  (exists st2,
     delete_question
       (fst (create_question sample_store
               (JObj [("question", JStr "Why?"); ("answer", JStr "Because");
                      ("category", JNum 2); ("difficulty", JNum 3)])))
       13 =
       (st2, Ok (jsonify 200 [("success", JBool true); ("deleted", JNum 13)])) /\
     len (questions st2) = 12) /\
  create_question sample_store
    (JObj [("question", JStr "Why?"); ("answer", JStr "Because");
           ("category", JNull); ("difficulty", JNum 3)])
  = (sample_store, abort 422).
Proof.
  split.
  - assert (Hwf : wf_store sample_store).
    { unfold wf_store. simpl. split; [lia|]. split; [|split].
      - repeat constructor.
      - repeat constructor; simpl; lia.
      - repeat constructor; simpl; intuition discriminate. }
    assert (Hrun : create_question sample_store
                     (JObj [("question", JStr "Why?"); ("answer", JStr "Because");
                            ("category", JNum 2); ("difficulty", JNum 3)])
                   = (fst (create_question sample_store
                             (JObj [("question", JStr "Why?"); ("answer", JStr "Because");
                                    ("category", JNum 2); ("difficulty", JNum 3)])),
                      Ok (jsonify 201
                            [("success", JBool true);
                             ("created", JNum 13);
                             ("message",
                              JStr "The question has been successfully created!")])))
      by reflexivity.
    destruct (proj1 (create_delete_round_trip sample_store _) _ _ Hwf Hrun)
      as [_ [_ [st2 [Hdel [_ Hlen]]]]].
    exists st2. split; [exact Hdel|exact Hlen].
  - apply (proj2 (create_delete_round_trip sample_store _)
             (JStr "Why?") (JStr "Because") (JNum 3)); reflexivity.
Defined.

(** C9 (absent key against null value). When the JSON body is an object
    that lacks one of the four keys, the field extraction raises a
    [KeyError] for the first key that is missing, before the null check
    and outside any [try]: the handler does not answer 422, Flask turns
    the exception into an internal server error, and the store is as it
    was. *)
Theorem create_question_missing_key (st : Store) (kvs : list (string * json)) (k : string) :
  In k ["question"; "answer"; "category"; "difficulty"] ->
  dict_lookup kvs k = None ->
  exists k',
    In k' ["question"; "answer"; "category"; "difficulty"] /\
    dict_lookup kvs k' = None /\
    create_question st (JObj kvs) = (st, Raise (KeyError k')) /\
    snd (create_question st (JObj kvs)) <> abort 422 /\
    respond (snd (create_question st (JObj kvs))) = internal_serve_error /\
    status (respond (snd (create_question st (JObj kvs)))) = 500.
Proof.
  intros Hk Hmiss. unfold create_question, subscript.
  destruct (dict_lookup kvs "question") as [q|] eqn:Hq.
  2:{ exists "question". simpl. intuition discriminate. }
  destruct (dict_lookup kvs "answer") as [a|] eqn:Ha.
  2:{ exists "answer". simpl. intuition discriminate. }
  destruct (dict_lookup kvs "category") as [c|] eqn:Hc.
  2:{ exists "category". simpl. intuition discriminate. }
  destruct (dict_lookup kvs "difficulty") as [d|] eqn:Hd.
  2:{ exists "difficulty". simpl. intuition discriminate. }
  exfalso. simpl in Hk.
  destruct Hk as [<-|[<-|[<-|[<-|[]]]]]; congruence.
Qed.

(** A body without the [category] key. *)
Lemma create_question_missing_key_witness :
  exists k',
    create_question sample_store
      (JObj [("question", JStr "Why?"); ("answer", JStr "Because");
             ("difficulty", JNum 3)])
    = (sample_store, Raise (KeyError k')).
Proof.
  destruct (create_question_missing_key sample_store
              [("question", JStr "Why?"); ("answer", JStr "Because");
               ("difficulty", JNum 3)]
              "category")
    as [k' [_ [_ [H _]]]].
  - simpl. auto.
  - reflexivity.
  - exists k'. exact H.
Defined.

(* ================================================================== *)
(** * The quiz *)
(* ================================================================== *)

Section Quiz.

Lemma randint_in_range (n : Z) (g : rng) :
  1 <= n ->
  exists i g', randint 0 (n - 1) g = Ok (i, g') /\ 0 <= i < n /\
               i = entropy g (cursor g) mod n.
Proof.
  intros Hn. unfold randint.
  destruct (n - 1 <? 0) eqn:E; [lia|].
  eexists. eexists. split; [reflexivity|].
  replace (n - 1 - 0 + 1) with n by lia. simpl.
  pose proof (Z.mod_pos_bound (entropy g (cursor g)) n). split; [lia|reflexivity].
Qed.

Lemma randint_empty_range (g : rng) : randint 0 (0 - 1) g = Raise ValueError.
Proof. reflexivity. Qed.

Lemma list_getitem_in_range {A} (l : list A) (i : Z) :
  0 <= i < len l ->
  exists a, list_getitem l i = Ok a /\ nth_error l (Z.to_nat i) = Some a /\ In a l.
Proof.
  unfold len. intros Hi. unfold list_getitem. cbv zeta.
  destruct (i <? 0) eqn:E; [lia|]. rewrite E. simpl orb.
  destruct (Z.of_nat (List.length l) <=? i) eqn:E'; [lia|].
  destruct (nth_error l (Z.to_nat i)) as [a|] eqn:Hnth.
  - exists a. split; [reflexivity|]. split; [reflexivity|].
    eapply nth_error_In, Hnth.
  - apply nth_error_None in Hnth. lia.
Qed.

(** The questions the handler draws from. *)
Lemma quiz_questions_pool (st : Store) (c : Z) :
  (if py_eq_int (JNum c) 0 then Ok (Question_query_all st)
   else filter_by_category st (JNum c)) = Ok (quiz_pool st c).
Proof.
  unfold quiz_pool, py_eq_int, filter_by_category, Question_query_all. simpl.
  destruct (c =? 0); reflexivity.
Qed.

(** The handler once the body is read, for an integer category id and a
    list of asked values. *)
Lemma set_quiz_run (st : Store) (g : rng) (data category : json) (c : Z)
      (asked : list json) :
  subscript data "quiz_category" = Ok category ->
  subscript data "previous_questions" = Ok (JList asked) ->
  subscript category "id" = Ok (JNum c) ->
  set_quiz st g data =
    try_except
      ('(i, g1) <- randint 0 (len (quiz_pool st c) - 1) g;;
       next_question <- list_getitem (quiz_pool st c) i;;
       next_question <-
         (if existsb (fun v => py_eq_int v (q_id next_question)) asked
          then '(j, _) <- randint 0 (len (quiz_pool st c) - 1) g1;;
               list_getitem (quiz_pool st c) j
          else Ok next_question);;
       Ok (jsonify 200 [("success", JBool true);
                        ("question", format next_question)]))
      (abort 422).
Proof.
  intros Hcat Hprev Hid. unfold set_quiz.
  rewrite Hcat, Hprev. cbn [bind].
  assert (Hnn : is_None category = false).
  { destruct category; try reflexivity. discriminate Hid. }
  rewrite Hnn. cbn [orb is_None bind].
  rewrite Hid. cbn [bind].
  rewrite quiz_questions_pool. reflexivity.
Qed.

(** Whatever the generator and whatever was asked before, a quiz over a
    pool that is not empty answers 200 with a question of the pool. *)
Lemma set_quiz_serves_from_pool (st : Store) (g : rng) (data category : json)
      (c : Z) (asked : list json) :
  subscript data "quiz_category" = Ok category ->
  subscript data "previous_questions" = Ok (JList asked) ->
  subscript category "id" = Ok (JNum c) ->
  quiz_pool st c <> [] ->
  exists q, In q (quiz_pool st c) /\
            set_quiz st g data =
              Ok (jsonify 200 [("success", JBool true); ("question", format q)]).
Proof.
  intros Hcat Hprev Hid Hne.
  rewrite (set_quiz_run st g data category c asked Hcat Hprev Hid).
  assert (Hn : 1 <= len (quiz_pool st c)).
  { unfold len. destruct (quiz_pool st c); [congruence|simpl; lia]. }
  destruct (randint_in_range _ g Hn) as [i [g1 [Hr [Hi _]]]].
  rewrite Hr. cbn [bind].
  destruct (list_getitem_in_range (quiz_pool st c) i Hi) as [q [Hq [_ Hin]]].
  rewrite Hq. cbn [bind].
  destruct (existsb (fun v => py_eq_int v (q_id q)) asked).
  - destruct (randint_in_range _ g1 Hn) as [j [g2 [Hr' [Hj _]]]].
    rewrite Hr'. cbn [bind].
    destruct (list_getitem_in_range (quiz_pool st c) j Hj) as [q' [Hq' [_ Hin']]].
    rewrite Hq'. simpl. exists q'. split; [exact Hin'|reflexivity].
  - simpl. exists q. split; [exact Hin|reflexivity].
Qed.

(** A question of the pool that was asked before can be served again:
    the generator that draws its index twice does it. *)
Lemma set_quiz_can_repeat (st : Store) (data category : json) (c : Z)
      (asked : list json) (q : Question) :
  subscript data "quiz_category" = Ok category ->
  subscript data "previous_questions" = Ok (JList asked) ->
  subscript category "id" = Ok (JNum c) ->
  In q (quiz_pool st c) ->
  existsb (fun v => py_eq_int v (q_id q)) asked = true ->
  exists g,
    set_quiz st g data =
      Ok (jsonify 200 [("success", JBool true); ("question", format q)]).
Proof.
  intros Hcat Hprev Hid Hin Hasked.
  destruct (In_nth_error _ _ Hin) as [k Hk].
  assert (Hlt : (k < List.length (quiz_pool st c))%nat).
  { apply nth_error_Some. congruence. }
  exists (const_rng (Z.of_nat k)).
  rewrite (set_quiz_run st _ data category c asked Hcat Hprev Hid).
  assert (Hn : 1 <= len (quiz_pool st c)) by (unfold len; lia).
  assert (Hmod : Z.of_nat k mod len (quiz_pool st c) = Z.of_nat k).
  { apply Z.mod_small. unfold len. lia. }
  destruct (randint_in_range _ (const_rng (Z.of_nat k)) Hn) as [i [g1 [Hr [Hi Hv]]]].
  rewrite Hr. cbn [bind].
  simpl in Hv. rewrite Hmod in Hv. subst i.
  destruct (list_getitem_in_range (quiz_pool st c) _ Hi) as [q0 [Hq0 [Hnth _]]].
  rewrite Nat2Z.id, Hk in Hnth. inversion Hnth; subst q0.
  rewrite Hq0. cbn [bind]. rewrite Hasked.
  destruct (randint_in_range _ g1 Hn) as [j [g2 [Hr' [Hj Hv']]]].
  rewrite Hr'. cbn [bind].
  assert (Hg1 : entropy g1 (cursor g1) = Z.of_nat k).
  { unfold randint in Hr.
    destruct (len (quiz_pool st c) - 1 <? 0); [discriminate|].
    inversion Hr; subst. reflexivity. }
  rewrite Hg1, Hmod in Hv'. subst j.
  rewrite Hq0. reflexivity.
Qed.

End Quiz.

(** C5 (invalid category). When the pool of the requested category is
    empty, as for a category id that no question carries, [set_quiz]
    fails with 422 whatever the list of asked questions (the empty list
    included) and whatever the generator: [randint] refuses the empty
    range and the handler's [except] turns that into [abort(422)]. *)
Theorem set_quiz_empty_pool (st : Store) (g : rng) (data category : json) (c : Z)
        (asked : list json) :
  subscript data "quiz_category" = Ok category ->
  subscript data "previous_questions" = Ok (JList asked) ->
  subscript category "id" = Ok (JNum c) ->
  quiz_pool st c = [] ->
  set_quiz st g data = abort 422 /\
  respond (set_quiz st g data) = unprocessable_entity.
Proof.
  intros Hcat Hprev Hid Hempty.
  rewrite (set_quiz_run st g data category c asked Hcat Hprev Hid).
  rewrite Hempty. simpl. split; reflexivity.
Qed.

(** No sample question is of category 9999. *)
Lemma set_quiz_empty_pool_witness :
  set_quiz sample_store zero_rng (quiz_request 9999 "Nowhere" []) = abort 422.
Proof.
  apply (set_quiz_empty_pool sample_store zero_rng (quiz_request 9999 "Nowhere" [])
           (JObj [("id", JNum 9999); ("type", JStr "Nowhere")]) 9999 []);
    reflexivity.
Defined.

(** C1 (repeat avoidance), at an input where the code departs from it.
    The small store has questions 1 and 2 in category 1 and question 1 was
    asked, so question 2 is still unseen; with a generator that draws index
    0 twice the handler draws question 1, sees that it was asked, draws
    once more from the whole pool without looking again, and serves
    question 1. *)
Theorem set_quiz_repeats_asked_question :
  quiz_pool small_store 1 = [mk_question 1 "First?" 1; mk_question 2 "Second?" 1] /\
  set_quiz small_store zero_rng (quiz_request 1 "Science" [1]) =
    Ok (jsonify 200 [("success", JBool true);
                     ("question", format (mk_question 1 "First?" 1))]) /\
  In (q_id (mk_question 1 "First?" 1)) [1] /\
  ~ In (q_id (mk_question 2 "Second?" 1)) [1].
Proof.
  split; [reflexivity|]. split; [reflexivity|].
  split; [simpl; auto|]. simpl. intros [H|[]]. discriminate H.
Qed.

(** C2 (exhaustion), at an input where the code departs from it. Both
    questions of the small store's category 1 were asked; whatever the
    generator, the handler still answers 200 with one of them: it has no
    outcome for a quiz that is over. *)
Theorem set_quiz_serves_when_exhausted (g : rng) :
  map q_id (quiz_pool small_store 1) = [1; 2] /\
  exists q,
    set_quiz small_store g (quiz_request 1 "Science" [1; 2]) =
      Ok (jsonify 200 [("success", JBool true); ("question", format q)]) /\
    In (q_id q) [1; 2].
Proof.
  split; [reflexivity|].
  destruct (set_quiz_serves_from_pool small_store g (quiz_request 1 "Science" [1; 2])
              (JObj [("id", JNum 1); ("type", JStr "Science")]) 1 [JNum 1; JNum 2])
    as [q [Hin Hrun]]; try reflexivity.
  - discriminate.
  - exists q. split; [exact Hrun|].
    simpl in Hin. destruct Hin as [<-|[<-|[]]]; simpl; auto.
Qed.

(* ================================================================== *)
(** * Search *)
(* ================================================================== *)

Section Search.

Lemma list_ascii_of_string_app (s1 s2 : string) :
  list_ascii_of_string (s1 ++ s2) =
    (list_ascii_of_string s1 ++ list_ascii_of_string s2)%list.
Proof.
  induction s1 as [|c s1 IH]; simpl; [reflexivity|]. rewrite IH. reflexivity.
Qed.

Lemma wrapped_pattern (term : string) :
  list_ascii_of_string ("%" ++ term ++ "%") =
    percent :: (list_ascii_of_string term ++ [percent])%list.
Proof.
  simpl. rewrite list_ascii_of_string_app. reflexivity.
Qed.

Lemma tokenize_cons (c : ascii) (p : list ascii) :
  tokenize (c :: p) =
    if Ascii.eqb c backslash then
      match p with
      | [] => None
      | d :: p' => option_map (cons (TLit d)) (tokenize p')
      end
    else if Ascii.eqb c percent then option_map (cons TAny) (tokenize p)
    else if Ascii.eqb c underscore then option_map (cons TOne) (tokenize p)
    else option_map (cons (TLit c)) (tokenize p).
Proof. reflexivity. Qed.

(** Induction over patterns, two characters at a time. *)
Lemma pattern_pair_ind (P : list ascii -> Prop) :
  P [] ->
  (forall c, P [c]) ->
  (forall c d p, P p -> P (d :: p) -> P (c :: d :: p)) ->
  forall p, P p.
Proof.
  intros Hnil Hone Hstep.
  assert (H : forall p, P p /\ forall c, P (c :: p)).
  { induction p as [|d p [IH1 IH2]].
    - split; [exact Hnil|exact Hone].
    - split; [apply IH2|]. intros c. apply Hstep; [exact IH1|apply IH2]. }
  intros p. apply H.
Qed.

(** A pattern that ends in [%] never ends in a lone escape. *)
Lemma tokenize_percent_end (t : list ascii) :
  exists ts, tokenize (t ++ [percent]) = Some ts.
Proof.
  induction t as [| c | c d p [ts1 IH1] [ts2 IH2]] using pattern_pair_ind.
  - eexists. reflexivity.
  - simpl. destruct (Ascii.eqb c backslash); [eexists; reflexivity|].
    destruct (Ascii.eqb c percent); [eexists; reflexivity|].
    destruct (Ascii.eqb c underscore); eexists; reflexivity.
  - change ((c :: d :: p) ++ [percent])%list with (c :: d :: (p ++ [percent]))%list.
    change ((d :: p) ++ [percent])%list with (d :: (p ++ [percent]))%list in IH2.
    rewrite tokenize_cons. cbv iota.
    destruct (Ascii.eqb c backslash).
    + rewrite IH1. eexists. reflexivity.
    + rewrite IH2.
      destruct (Ascii.eqb c percent); [eexists; reflexivity|].
      destruct (Ascii.eqb c underscore); eexists; reflexivity.
Qed.

Lemma tokenize_wrapped (term : string) :
  exists ts,
    tokenize (list_ascii_of_string term ++ [percent]) = Some ts /\
    tokenize (list_ascii_of_string ("%" ++ term ++ "%")) = Some (TAny :: ts).
Proof.
  destruct (tokenize_percent_end (list_ascii_of_string term)) as [ts Hts].
  exists ts. split; [exact Hts|].
  rewrite wrapped_pattern. cbn [tokenize]. fold tokenize.
  change (Ascii.eqb percent backslash) with false.
  change (Ascii.eqb percent percent) with true.
  cbv iota. rewrite Hts. reflexivity.
Qed.

Lemma query_filter_total {A} (f : A -> bool) (rows : list A) :
  query_filter (fun r => Ok (f r)) rows = Ok (filter f rows).
Proof.
  induction rows as [|r rest IH]; simpl; [reflexivity|].
  rewrite IH. simpl. reflexivity.
Qed.

Lemma query_filter_ext {A} (c1 c2 : A -> result bool) (rows : list A) :
  (forall r, c1 r = c2 r) -> query_filter c1 rows = query_filter c2 rows.
Proof.
  intros H. induction rows as [|r rest IH]; simpl; [reflexivity|].
  rewrite H, IH. reflexivity.
Qed.

Lemma nonempty_truthy (term : string) : term <> "" -> truthy (JStr term) = true.
Proof.
  intros H. simpl. destruct (String.eqb term "") eqn:E; [|reflexivity].
  apply String.eqb_eq in E. contradiction.
Qed.

(** A search for a term that is not empty is the ILIKE filter with the
    pattern [%term%] over the table, in table order. *)
Lemma question_search_run (st : Store) (term : string) :
  term <> "" ->
  exists ts,
    tokenize (list_ascii_of_string ("%" ++ term ++ "%")) = Some (TAny :: ts) /\
    tokenize (list_ascii_of_string term ++ [percent]) = Some ts /\
    question_search st (search_request term) =
      Ok (search_response
            (filter (fun q => tmatch (TAny :: ts) (list_ascii_of_string (q_question q)))
                    (questions st))).
Proof.
  intros Hne. destruct (tokenize_wrapped term) as [ts [Hts Hw]].
  exists ts. split; [exact Hw|]. split; [exact Hts|].
  unfold question_search, search_request. cbn [dict_get dict_lookup bind].
  change (String.eqb "searchTerm" "searchTerm") with true. cbv iota. cbn [bind].
  rewrite (nonempty_truthy term Hne). cbn [py_str].
  rewrite (query_filter_ext _
             (fun q => Ok (tmatch (TAny :: ts) (list_ascii_of_string (q_question q))))).
  - rewrite query_filter_total. reflexivity.
  - intros q. unfold ilike. rewrite Hw. reflexivity.
Qed.

(** An empty or absent term is a 404 whatever the store holds. *)
Lemma question_search_empty_term (st : Store) :
  question_search st (search_request "") = abort 404 /\
  question_search st (JObj []) = abort 404 /\
  question_search st (JObj [("searchTerm", JNull)]) = abort 404.
Proof. repeat split. Qed.

(** ** [%] and the rest of a pattern *)

Lemma tmatch_any (ts : list tok) (s : list ascii) :
  tmatch (TAny :: ts) s =
    tmatch ts s || match s with
                   | [] => false
                   | _ :: s' => tmatch (TAny :: ts) s'
                   end.
Proof. destruct s; reflexivity. Qed.

Lemma tmatch_any_here (ts : list tok) (s : list ascii) :
  tmatch ts s = true -> tmatch (TAny :: ts) s = true.
Proof. intros H. rewrite tmatch_any, H. reflexivity. Qed.


Lemma eq_nocase_refl (c : ascii) : eq_nocase c c = true.
Proof. apply Ascii.eqb_refl. Qed.


End Search.

Section Wildcards.








End Wildcards.

Section LiteralTerms.






End LiteralTerms.

(* ================================================================== *)
(** * The matcher against the ILIKE of the manual *)
(* ================================================================== *)

Section LikeSemantics.







(** What a derivation of [like_match] ends with, by the head of the
    pattern. *)
Lemma like_match_inv (p s : list ascii) :
  like_match p s ->
  match p with
  | [] => s = []
  | c :: p' =>
      (c = percent /\
       exists run rest, s = (run ++ rest)%list /\ like_match p' rest) \/
      (c = underscore /\
       exists d rest, s = d :: rest /\ like_match p' rest) \/
      (c = backslash /\
       exists c' p'' d rest,
         p' = c' :: p'' /\ s = d :: rest /\ same_letter c' d /\
         like_match p'' rest) \/
      (is_special c = false /\
       exists d rest, s = d :: rest /\ same_letter c d /\ like_match p' rest)
  end.
Proof.
  intros H. destruct H as [|p run rest H|p d rest H|p c d rest Hc H|p c d rest Hs Hc H].
  - reflexivity.
  - left. split; [reflexivity|]. exists run, rest. split; [reflexivity|exact H].
  - right. left. split; [reflexivity|].
    exists d, rest. split; [reflexivity|exact H].
  - right. right. left. split; [reflexivity|].
    exists c, p, d, rest. repeat split; assumption.
  - right. right. right. split; [exact Hs|].
    exists d, rest. split; [reflexivity|]. split; assumption.
Qed.






(** A pattern that ends in a lone escape is in the relation with no
    text: the matcher has nothing to decide there. *)
Lemma like_match_lone_escape (s : list ascii) : ~ like_match [backslash] s.
Proof.
  intros H. apply like_match_inv in H.
  destruct H as [[E _]|[[E _]|[[_ H]|[E _]]]]; try discriminate E.
  destruct H as [c' [p'' [d [rest [Ep _]]]]]. discriminate Ep.
Qed.


End LikeSemantics.

(** C3 (search semantics), at an input where the code departs from it.
    The term [%] is not empty and only the first sample question contains
    a percent sign, yet the search answers with all twelve questions: the
    term goes into the ILIKE pattern as it is, where [%] is a wildcard. *)
Theorem question_search_percent_finds_all :
  filter (fun q => contains_nocase "%" (q_question q)) (questions sample_store) =
    [mk_question 1 "What is 100% certain?" 1] /\
  question_search sample_store (search_request "%") =
    Ok (search_response (questions sample_store)) /\
  len (questions sample_store) = 12.
Proof. repeat split. Qed.



(* ================================================================== *)
(** * Further properties: the listings *)
(* ================================================================== *)

Section Listings.

Lemma str_of_int_inj (n m : Z) : str_of_int n = str_of_int m -> n = m.
Proof.
  unfold str_of_int. intros H. apply DecimalZ.to_int_inj.
  assert (Hrt : forall z, NilZero.int_of_string (NilZero.string_of_int (Z.to_int z))
                          = Some (Z.to_int z)).
  { intros z. apply NilZero.isi; destruct z; simpl; try discriminate;
      intros E; inversion E as [E'];
      exact (DecimalPos.Unsigned.to_uint_nonnil _ E'). }
  pose proof (Hrt n) as Hn. rewrite H, Hrt in Hn. congruence.
Qed.

Lemma dict_lookup_set (d : list (string * json)) (k k' : string) (v : json) :
  dict_lookup (dict_set d k v) k' =
    if String.eqb k k' then Some v else dict_lookup d k'.
Proof.
  induction d as [|[k0 v0] d IH]; simpl.
  - rewrite String.eqb_sym. reflexivity.
  - destruct (String.eqb k0 k) eqn:E0; simpl.
    + apply String.eqb_eq in E0. subst k0.
      destruct (String.eqb k k'); reflexivity.
    + destruct (String.eqb k0 k') eqn:E1.
      * apply String.eqb_eq in E1. subst k0.
        rewrite String.eqb_sym, E0. reflexivity.
      * exact IH.
Qed.

(** The dict comprehension, from any dict built so far. *)
Lemma comprehension_other (cs : list Category) (d : list (string * json)) (k : string) :
  ~ In k (map (fun c => str_of_int (c_id c)) cs) ->
  dict_lookup
    (fold_left (fun d c => dict_set d (str_of_int (c_id c)) (JStr (c_type c))) cs d) k
  = dict_lookup d k.
Proof.
  revert d. induction cs as [|c cs IH]; intros d Hk; simpl; [reflexivity|].
  rewrite IH.
  - rewrite dict_lookup_set.
    destruct (String.eqb (str_of_int (c_id c)) k) eqn:E; [|reflexivity].
    apply String.eqb_eq in E. exfalso. apply Hk. left. exact E.
  - intros Hin. apply Hk. right. exact Hin.
Qed.

Lemma comprehension_member (cs : list Category) (d : list (string * json)) (c : Category) :
  NoDup (map c_id cs) -> In c cs ->
  dict_lookup
    (fold_left (fun d c => dict_set d (str_of_int (c_id c)) (JStr (c_type c))) cs d)
    (str_of_int (c_id c))
  = Some (JStr (c_type c)).
Proof.
  revert d. induction cs as [|c0 cs IH]; intros d Hnd Hin; [contradiction|].
  inversion Hnd as [|? ? Hnotin Hnd']; subst. simpl.
  destruct Hin as [->|Hin].
  - rewrite comprehension_other.
    + rewrite dict_lookup_set, String.eqb_refl. reflexivity.
    + intros Hk. apply in_map_iff in Hk. destruct Hk as [c' [Hc' Hin']].
      apply str_of_int_inj in Hc'. apply Hnotin. apply in_map_iff.
      exists c'. split; assumption.
  - apply IH; assumption.
Qed.

Lemma comprehension_only (cs : list Category) (d : list (string * json))
      (k : string) (v : json) :
  dict_lookup
    (fold_left (fun d c => dict_set d (str_of_int (c_id c)) (JStr (c_type c))) cs d) k
  = Some v ->
  dict_lookup d k = Some v \/
  exists c, In c cs /\ k = str_of_int (c_id c) /\ v = JStr (c_type c).
Proof.
  revert d. induction cs as [|c cs IH]; intros d H; simpl in H; [left; exact H|].
  destruct (IH _ H) as [Hd|[c' [Hin [Hk Hv]]]].
  - rewrite dict_lookup_set in Hd.
    destruct (String.eqb (str_of_int (c_id c)) k) eqn:E.
    + right. exists c. apply String.eqb_eq in E. inversion Hd.
      split; [left; reflexivity|]. split; [symmetry; exact E|reflexivity].
    + left. exact Hd.
  - right. exists c'. split; [right; exact Hin|]. split; assumption.
Qed.

(** [get_questions] on a page in range of the request. *)
Lemma get_questions_run (st : Store) (p : Z) :
  1 <= p ->
  (p - 1) * 10 <= max_bigint ->
  get_questions st (Some p) =
    let items := slice_rows 10 ((p - 1) * 10) (order_by_id (questions st)) in
    if len items =? 0 then abort 404 else Ok (questions_response st items).
Proof.
  intros Hp Hmax. unfold get_questions, Question_query_all, Category_query_all.
  rewrite paginate_slice by assumption. cbv zeta.
  destruct (len (slice_rows 10 ((p - 1) * 10) (order_by_id (questions st))) =? 0)
    eqn:E0; simpl.
  - destruct (p =? 1); simpl; [rewrite E0|]; reflexivity.
  - rewrite E0. reflexivity.
Qed.

Lemma rank_page (i : nat) :
  1 <= Z.of_nat (i / 10) + 1 /\
  Z.to_nat ((Z.of_nat (i / 10) + 1 - 1) * 10) = (10 * (i / 10))%nat.
Proof. split; lia. Qed.

Lemma rank_offset (i : nat) :
  Z.of_nat i <= max_bigint ->
  (Z.of_nat (i / 10) + 1 - 1) * 10 <= max_bigint.
Proof.
  intros Hi. pose proof (Nat.div_mod_eq i 10) as Hdm.
  assert (10 * (i / 10) <= i)%nat by lia. lia.
Qed.

(** The page of a rank beyond the range of a database offset is refused,
    whatever the table holds. *)
Lemma get_questions_rank_out_of_range (st : Store) (i : nat) :
  max_bigint + 10 <= Z.of_nat i ->
  get_questions st (Some (Z.of_nat (i / 10) + 1)) = Raise StoreError.
Proof.
  intros Hi. unfold get_questions, Question_query_all.
  rewrite paginate_out_of_range; [reflexivity|].
  pose proof (Nat.div_mod_eq i 10) as Hdm.
  pose proof (Nat.mod_upper_bound i 10) as Hmod.
  assert (i <= 10 * (i / 10) + 9)%nat by lia. lia.
Qed.

(** So a question of such a rank, in a table longer than any database
    holds, is on no page: the bound on the ranks cannot be dropped. *)
Lemma rank_out_of_range_unserved :
  exists (st : Store) (i : nat) (q : Question),
    nth_error (order_by_id (questions st)) i = Some q /\
    get_questions st (Some (Z.of_nat (i / 10) + 1)) = Raise StoreError.
Proof.
  assert (Hi : exists i : nat, max_bigint + 10 <= Z.of_nat i).
  { exists (Z.to_nat (max_bigint + 10)). rewrite Z2Nat.id; [lia|].
    unfold max_bigint. lia. }
  destruct Hi as [i Hi].
  pose (st := {| questions := repeat (mk_question 1 "q" 1) (S i);
                 categories := []; next_id := 2 |}).
  destruct (nth_error (order_by_id (questions st)) i) as [q|] eqn:E.
  - exists st, i, q. split; [exact E|].
    apply get_questions_rank_out_of_range, Hi.
  - apply nth_error_None in E.
    rewrite order_by_id_length in E. unfold st in E. cbn [questions] in E.
    rewrite repeat_length in E. lia.
Qed.

End Listings.

(** X1. [get_categories] answers 404 exactly when the store has no
    category. Otherwise it answers 200 with an object of categories: every
    key of that object is the id of a stored category, written in decimal,
    with the category's type as its value, and when the ids are unique
    every stored category is in it under its own id. *)
Theorem get_categories_lists_every_category (st : Store) :
  (get_categories st = abort 404 <-> categories st = []) /\
  (categories st <> [] ->
   exists d,
     get_categories st =
       Ok (jsonify 200 [("success", JBool true); ("categories", JObj d)]) /\
     (forall k v, dict_lookup d k = Some v ->
        exists c, In c (categories st) /\ k = str_of_int (c_id c) /\
                  v = JStr (c_type c)) /\
     (NoDup (map c_id (categories st)) ->
      forall c, In c (categories st) ->
        dict_lookup d (str_of_int (c_id c)) = Some (JStr (c_type c)))).
Proof.
  unfold get_categories, Category_query_all. split.
  - destruct (categories st) as [|c cs]; simpl.
    + split; reflexivity.
    + split; discriminate.
  - intros Hne.
    destruct (len (categories st) =? 0) eqn:E.
    { apply Z.eqb_eq, len_zero_nil in E. contradiction. }
    eexists. split; [reflexivity|]. split.
    + intros k v H. apply comprehension_only in H.
      destruct H as [H|H]; [discriminate H|exact H].
    + intros Hnd c Hin. apply comprehension_member; assumption.
Qed.

(** The three sample categories. *)
Lemma get_categories_lists_every_category_witness :
  exists d,
    get_categories sample_store =
      Ok (jsonify 200 [("success", JBool true); ("categories", JObj d)]) /\
    dict_lookup d "2" = Some (JStr "Art").
Proof.
  destruct (proj2 (get_categories_lists_every_category sample_store))
    as [d [Hrun [_ Hall]]].
  - discriminate.
  - exists d. split; [exact Hrun|].
    apply (Hall ltac:(simpl; repeat constructor; simpl; intuition discriminate)
                {| c_id := 2; c_type := "Art" |}).
    simpl. auto.
Defined.

(** X2. [get_questions] answers 404 for every page number below 1;
    when the store holds no question it answers 404 for the default page
    and for every page whose offset (p-1)*10 the database can take; and
    for every page whose offset is beyond the [bigint] range the database
    refuses the query, which the handler does not catch, so Flask answers
    with an internal server error whatever the store holds. *)
Theorem get_questions_no_such_page (st : Store) :
  (forall p, p < 1 -> get_questions st (Some p) = abort 404) /\
  (questions st = [] ->
   get_questions st None = abort 404 /\
   forall p, (p - 1) * 10 <= max_bigint -> get_questions st (Some p) = abort 404) /\
  (forall p, max_bigint < (p - 1) * 10 ->
     get_questions st (Some p) = Raise StoreError /\
     respond (get_questions st (Some p)) = internal_serve_error).
Proof.
  split; [|split].
  - intros p Hp. unfold get_questions, paginate.
    destruct (p <? 1) eqn:E; [reflexivity|lia].
  - intros Hempty.
    assert (Hpage : forall p, (p - 1) * 10 <= max_bigint ->
                              get_questions st (Some p) = abort 404).
    { intros p Hmax. destruct (Z.ltb_spec p 1) as [Hlt|Hge].
      - unfold get_questions, paginate.
        destruct (p <? 1) eqn:E; [reflexivity|lia].
      - rewrite (get_questions_run st p Hge Hmax). rewrite Hempty.
        unfold slice_rows. simpl order_by_id. rewrite skipn_nil, firstn_nil.
        reflexivity. }
    split; [|exact Hpage].
    apply (Hpage 1). unfold max_bigint. lia.
  - intros p Hmax.
    assert (Hrun : get_questions st (Some p) = Raise StoreError).
    { unfold get_questions. rewrite paginate_out_of_range by exact Hmax.
      reflexivity. }
    rewrite Hrun. split; reflexivity.
Qed.

(** Page 0 of the sample store, page 3 of an empty store, and the page
    of the sample store whose offset is 9223372036854775810. *)
Lemma get_questions_no_such_page_witness :
  get_questions sample_store (Some 0) = abort 404 /\
  get_questions {| questions := []; categories := sample_categories; next_id := 1 |}
                (Some 3)
  = abort 404 /\
  get_questions sample_store (Some 922337203685477582) = Raise StoreError.
Proof.
  split; [|split].
  - apply (proj1 (get_questions_no_such_page sample_store)). lia.
  - apply (proj1 (proj2 (get_questions_no_such_page
                    {| questions := []; categories := sample_categories;
                       next_id := 1 |}))).
    + reflexivity.
    + vm_compute. discriminate.
  - apply (proj2 (proj2 (get_questions_no_such_page sample_store))).
    vm_compute. reflexivity.
Defined.

(** X3. The pages lose no question: the question of rank [i] in
    ascending id order (ranks from 0, within the range of a database
    offset) is served by [get_questions] on page [i / 10 + 1], at position
    [i mod 10] of that page; so every question of a store whose table the
    database can count is on some page. *)
Theorem get_questions_serves_every_question (st : Store) :
  (forall (i : nat) (q : Question),
     Z.of_nat i <= max_bigint ->
     nth_error (order_by_id (questions st)) i = Some q ->
     exists items,
       get_questions st (Some (Z.of_nat (i / 10) + 1)) =
         Ok (questions_response st items) /\
       nth_error items (i mod 10) = Some q) /\
  (len (questions st) <= max_bigint ->
   forall q, In q (questions st) ->
     exists p items,
       1 <= p /\
       get_questions st (Some p) = Ok (questions_response st items) /\
       In q items).
Proof.
  assert (Hrank : forall (i : nat) (q : Question),
     Z.of_nat i <= max_bigint ->
     nth_error (order_by_id (questions st)) i = Some q ->
     exists items,
       get_questions st (Some (Z.of_nat (i / 10) + 1)) =
         Ok (questions_response st items) /\
       nth_error items (i mod 10) = Some q).
  { intros i q Hi Hnth. destruct (rank_page i) as [Hp Hoff].
    rewrite (get_questions_run st _ Hp (rank_offset i Hi)). cbv zeta.
    assert (Hitem : nth_error
                      (slice_rows 10 ((Z.of_nat (i / 10) + 1 - 1) * 10)
                                  (order_by_id (questions st)))
                      (i mod 10) = Some q).
    { unfold slice_rows. rewrite Hoff.
      change (Z.to_nat 10) with 10%nat.
      rewrite nth_error_firstn.
      assert (Hlt : (i mod 10 < 10)%nat) by (apply Nat.mod_upper_bound; lia).
      apply Nat.ltb_lt in Hlt. rewrite Hlt.
      rewrite nth_error_skipn.
      rewrite <- (Nat.div_mod_eq i 10). exact Hnth. }
    destruct (len (slice_rows 10 ((Z.of_nat (i / 10) + 1 - 1) * 10)
                              (order_by_id (questions st))) =? 0) eqn:E0.
    - apply Z.eqb_eq, len_zero_nil in E0. rewrite E0 in Hitem.
      destruct (i mod 10)%nat; discriminate Hitem.
    - eexists. split; [reflexivity|exact Hitem]. }
  split; [exact Hrank|].
  intros Hsize q Hin.
  assert (Hin' : In q (order_by_id (questions st))).
  { eapply Permutation_in; [apply order_by_id_perm|exact Hin]. }
  destruct (In_nth_error _ _ Hin') as [i Hi].
  assert (Hlt : (i < List.length (order_by_id (questions st)))%nat).
  { apply nth_error_Some. congruence. }
  rewrite order_by_id_length in Hlt.
  assert (Hbound : Z.of_nat i <= max_bigint) by (unfold len in Hsize; lia).
  destruct (Hrank i q Hbound Hi) as [items [Hrun Hnth]].
  exists (Z.of_nat (i / 10) + 1), items.
  split; [lia|]. split; [exact Hrun|]. eapply nth_error_In, Hnth.
Qed.

(** The twelfth sample question, of rank 11, is second on page 2. *)
Lemma get_questions_serves_every_question_witness :
  exists items,
    get_questions sample_store (Some 2) = Ok (questions_response sample_store items) /\
    nth_error items 1 = Some (mk_question 12 "What is a quark?" 1).
Proof.
  apply (proj1 (get_questions_serves_every_question sample_store) 11%nat).
  - vm_compute. discriminate.
  - reflexivity.
Defined.

(** X4. For a category that exists, ids being unique,
    [get_questions_by_category] answers 200 with exactly the questions of
    that category, in table order, their number as [total_questions] and
    the category's type as current category; no question of another
    category is in the answer. *)
Theorem get_questions_by_category_exact (st : Store) (c : Category) :
  NoDup (map c_id (categories st)) ->
  In c (categories st) ->
  let found := filter (fun q => q_category q =? c_id c) (questions st) in
  get_questions_by_category st (c_id c) = Ok (category_response c found) /\
  (forall q, In q found <-> In q (questions st) /\ q_category q = c_id c) /\
  (StronglySorted Z.lt (map q_id (questions st)) ->
   StronglySorted Z.lt (map q_id found)).
Proof.
  intros Hnd Hin found. split; [|split].
  - unfold get_questions_by_category, Category_query_all, Question_query_all.
    rewrite (filter_unique_category _ c Hnd Hin). reflexivity.
  - intros q. unfold found. rewrite filter_In. split.
    + intros [Hq Hc]. split; [exact Hq|lia].
    + intros [Hq Hc]. split; [exact Hq|lia].
  - apply filter_sorted.
Qed.

(** Category 2 of the sample store has questions 2, 5, 8 and 11. *)
Lemma get_questions_by_category_exact_witness :
  get_questions_by_category sample_store 2 =
    Ok (category_response {| c_id := 2; c_type := "Art" |}
          [mk_question 2 "Who painted the Mona Lisa?" 2;
           mk_question 5 "Which artist cut off an ear?" 2;
           mk_question 8 "Who sculpted David?" 2;
           mk_question 11 "Who painted Guernica?" 2]).
Proof.
  apply (get_questions_by_category_exact sample_store {| c_id := 2; c_type := "Art" |}).
  - simpl. repeat constructor; simpl; intuition discriminate.
  - simpl. auto.
Defined.

(* ================================================================== *)
(** * Further properties: deleting and creating *)
(* ================================================================== *)

Section MutationFacts.

Lemma filter_out_one (rows : list Question) (id : Z) :
  NoDup (map q_id rows) -> In id (map q_id rows) ->
  S (List.length (filter (fun r => negb (q_id r =? id)) rows)) = List.length rows.
Proof.
  induction rows as [|r rest IH]; simpl; intros Hnd Hin; [contradiction|].
  inversion Hnd as [|? ? Hnotin Hnd']; subst.
  destruct (q_id r =? id) eqn:E; simpl.
  - assert (Hid : q_id r = id) by lia. subst id.
    rewrite (filter_out_absent rest (q_id r) Hnotin). reflexivity.
  - f_equal. apply IH; [exact Hnd'|].
    destruct Hin as [Hin|Hin]; [lia|exact Hin].
Qed.

Lemma prefix_nocase_refl (t : list ascii) : prefix_nocase t t = true.
Proof.
  induction t as [|c t IH]; simpl; [reflexivity|].
  rewrite eq_nocase_refl, IH. reflexivity.
Qed.

(** Without an escape, each token of a pattern matches the character it
    was read from, so the pattern matches its own text. *)
Lemma tmatch_own_text (t : list ascii) :
  existsb (Ascii.eqb backslash) t = false ->
  forall ts, tokenize (t ++ [percent]) = Some ts -> tmatch ts t = true.
Proof.
  induction t as [|c t IH]; intros Hno ts Hts.
  - inversion Hts; subst. reflexivity.
  - cbn [existsb] in Hno. apply orb_false_iff in Hno. destruct Hno as [Hc Hno].
    assert (Hc' : Ascii.eqb c backslash = false)
      by (rewrite Ascii.eqb_sym; exact Hc).
    change ((c :: t) ++ [percent])%list with (c :: (t ++ [percent]))%list in Hts.
    rewrite tokenize_cons, Hc' in Hts.
    destruct (tokenize (t ++ [percent])) as [ts'|] eqn:Ht;
      [|destruct (Ascii.eqb c percent); [discriminate|];
        destruct (Ascii.eqb c underscore); discriminate].
    specialize (IH Hno ts' eq_refl).
    destruct (Ascii.eqb c percent).
    + inversion Hts; subst. rewrite tmatch_any.
      replace (tmatch (TAny :: ts') t) with true; [apply orb_true_r|].
      symmetry. apply tmatch_any_here, IH.
    + destruct (Ascii.eqb c underscore); inversion Hts; subst; cbn [tmatch].
      * exact IH.
      * rewrite eq_nocase_refl, IH. reflexivity.
Qed.

End MutationFacts.

(** X5. Deleting the same id twice: whatever the first
    [delete_question] answered, the second one fails with 422 and leaves
    the store as the first one left it. *)
Theorem delete_question_twice (st : Store) (question_id : Z) :
  let st1 := fst (delete_question st question_id) in
  delete_question st1 question_id = (st1, abort 422) /\
  ~ In question_id (map q_id (questions st1)).
Proof.
  cbv zeta.
  assert (Hgone : ~ In question_id
                    (map q_id (questions (fst (delete_question st question_id))))).
  { rewrite delete_question_run.
    destruct (Question_query_get st question_id) as [q|] eqn:Hget; simpl.
    - apply filter_out_gone.
    - apply find_none_iff. exact Hget. }
  split; [|exact Hgone].
  rewrite (delete_question_run (fst (delete_question st question_id))).
  unfold Question_query_get at 1.
  apply find_none_iff in Hgone. rewrite Hgone. reflexivity.
Qed.

(** X6. [delete_question] either answers 200 with the id or fails with
    422 and leaves the store as it is. When the ids are unique and the id
    is there, it answers 200, removes exactly one question, and leaves the
    categories and the id sequence alone. *)
Theorem delete_question_removes_one (st : Store) (question_id : Z) :
  (snd (delete_question st question_id) = Ok (deleted_response question_id) \/
   delete_question st question_id = (st, abort 422)) /\
  (NoDup (map q_id (questions st)) ->
   In question_id (map q_id (questions st)) ->
   exists st1,
     delete_question st question_id = (st1, Ok (deleted_response question_id)) /\
     len (questions st1) = len (questions st) - 1 /\
     categories st1 = categories st /\
     next_id st1 = next_id st).
Proof.
  rewrite delete_question_run. split.
  - destruct (Question_query_get st question_id); [left|right]; reflexivity.
  - intros Hnd Hin. unfold Question_query_get.
    destruct (find (fun q => q_id q =? question_id) (questions st)) eqn:Hfind.
    + eexists. split; [reflexivity|]. simpl. split; [|split; reflexivity].
      unfold len. pose proof (filter_out_one _ _ Hnd Hin). lia.
    + apply find_none_iff in Hfind. contradiction.
Qed.

(** Deleting question 5 of the twelve leaves eleven. *)
Lemma delete_question_removes_one_witness :
  exists st1,
    delete_question sample_store 5 = (st1, Ok (deleted_response 5)) /\
    len (questions st1) = 11.
Proof.
  destruct (proj2 (delete_question_removes_one sample_store 5))
    as [st1 [Hrun [Hlen _]]].
  - simpl. repeat constructor; simpl; intuition discriminate.
  - simpl. auto 10.
  - exists st1. split; [exact Hrun|exact Hlen].
Defined.

(** X7. When the body has the four keys and any of the four values is
    null, [create_question] fails with 422 and inserts nothing. *)
Theorem create_question_null_field (st : Store) (data q a c d : json) :
  subscript data "question" = Ok q ->
  subscript data "answer" = Ok a ->
  subscript data "category" = Ok c ->
  subscript data "difficulty" = Ok d ->
  q = JNull \/ a = JNull \/ c = JNull \/ d = JNull ->
  create_question st data = (st, abort 422).
Proof.
  intros Hq Ha Hc Hd Hnull.
  rewrite (create_question_run st data q a c d Hq Ha Hc Hd).
  assert (H : is_None q || is_None a || is_None c || is_None d = true).
  { destruct Hnull as [-> | [-> | [-> | ->]]]; simpl;
      rewrite ?orb_true_r; reflexivity. }
  rewrite H. reflexivity.
Qed.

(** A body whose difficulty is null. *)
Lemma create_question_null_field_witness :
  create_question sample_store
    (create_request (JStr "Why?") (JStr "Because") (JNum 2) JNull)
  = (sample_store, abort 422).
Proof.
  apply (create_question_null_field sample_store _
           (JStr "Why?") (JStr "Because") (JNum 2) JNull);
    try reflexivity.
  right. right. right. reflexivity.
Defined.

Section CreateCases.

Lemma create_question_cases (st : Store) (data : json) :
  (exists row,
     create_question st data =
       ({| questions := (questions st ++ [row])%list;
           categories := categories st;
           next_id := next_id st + 1 |},
        Ok (created_response (next_id st))) /\
     q_id row = next_id st) \/
  (fst (create_question st data) = st /\
   (snd (create_question st data) = abort 422 \/
    (exists k, snd (create_question st data) = Raise (KeyError k)) \/
    snd (create_question st data) = Raise TypeError)).
Proof.
  unfold create_question.
  assert (Hsub : forall k, (exists v, subscript data k = Ok v) \/
                           subscript data k = Raise (KeyError k) \/
                           subscript data k = Raise TypeError).
  { intros k. unfold subscript.
    destruct data; auto. destruct (dict_lookup kvs k); eauto. }
  destruct (Hsub "question") as [[q ->] | [-> | ->]]; simpl; eauto 6.
  destruct (Hsub "answer") as [[a ->] | [-> | ->]]; simpl; eauto 6.
  destruct (Hsub "category") as [[c ->] | [-> | ->]]; simpl; eauto 6.
  destruct (Hsub "difficulty") as [[d ->] | [-> | ->]]; simpl; eauto 6.
  destruct (is_None q || is_None a || is_None c || is_None d); simpl; [auto|].
  unfold Question_insert.
  destruct (as_text q), (as_text a), (as_int c), (as_int d); simpl; auto.
  left. eexists. split; reflexivity.
Qed.

End CreateCases.

(** X8. [create_question], its reading of the body included, changes
    the store only when it answers 201: either it answers 201 with the
    next id of the sequence, appends one question with that id and
    advances the sequence, or it leaves the store as it is and fails with
    400, with 422, with a [KeyError] or with a [TypeError]. It fails with
    400 exactly when the body does not parse, and it never answers 404. *)
Theorem create_question_outcomes (st : Store) (b : payload) :
  ((exists row,
      create_question_view st b =
        ({| questions := (questions st ++ [row])%list;
            categories := categories st;
            next_id := next_id st + 1 |},
         Ok (created_response (next_id st))) /\
      q_id row = next_id st) \/
   (fst (create_question_view st b) = st /\
    (snd (create_question_view st b) = abort 400 \/
     snd (create_question_view st b) = abort 422 \/
     (exists k, snd (create_question_view st b) = Raise (KeyError k)) \/
     snd (create_question_view st b) = Raise TypeError))) /\
  (snd (create_question_view st b) = abort 400 <-> b = Malformed) /\
  snd (create_question_view st b) <> abort 404.
Proof.
  destruct b as [|data]; unfold create_question_view; cbn [get_json fst snd].
  - split; [right; split; [reflexivity|left; reflexivity]|].
    split; [split; reflexivity|discriminate].
  - destruct (create_question_cases st data) as [[row [E Hid]]|[Hst Hout]].
    + split; [left; exists row; split; assumption|].
      rewrite E. cbn [snd]. split; [split; discriminate|discriminate].
    + split; [right; split; [exact Hst|right; exact Hout]|].
      destruct Hout as [E|[[k E]|E]]; rewrite E;
        (split; [split; discriminate|discriminate]).
Qed.

(** X9. A body that is not a JSON object (null, a number, a string, a
    list): [create_question] raises a [TypeError] on its first subscript,
    outside any [try], which Flask answers with 500, and inserts nothing;
    [question_search] raises an [AttributeError] on [data.get], answered
    with 500 as well; [set_quiz] raises inside its [try] and answers
    422. *)
Theorem non_object_body (st : Store) (g : rng) (data : json) :
  (forall kvs, data <> JObj kvs) ->
  create_question st data = (st, Raise TypeError) /\
  respond (snd (create_question st data)) = internal_serve_error /\
  question_search st data = Raise AttributeError /\
  respond (question_search st data) = internal_serve_error /\
  set_quiz st g data = abort 422.
Proof.
  intros Hno. destruct data; try (repeat split; reflexivity).
  exfalso. exact (Hno kvs eq_refl).
Qed.

(** A request without a JSON body, for which [get_json()] is [None]. *)
Lemma non_object_body_witness :
  create_question sample_store JNull = (sample_store, Raise TypeError) /\
  set_quiz sample_store zero_rng JNull = abort 422.
Proof.
  destruct (non_object_body sample_store zero_rng JNull) as [H1 [_ [_ [_ H5]]]].
  - discriminate.
  - split; [exact H1|exact H5].
Defined.

(** X10. A question created with a text, an answer, a category and a
    difficulty is there afterwards: the answer is 201 with the next id of
    the sequence, the row with that id holds the four values, the listing
    of its category (when the category exists) contains it, and when its
    text is not empty and has no backslash a search for that text finds
    it. *)
Theorem created_question_is_found (st : Store) (q a : string) (c d : Z) :
  wf_store st ->
  let row := {| q_id := next_id st; q_question := q; q_answer := a;
                q_category := c; q_difficulty := d |} in
  exists st1,
    create_question st (create_request (JStr q) (JStr a) (JNum c) (JNum d)) =
      (st1, Ok (created_response (next_id st))) /\
    Question_query_get st1 (next_id st) = Some row /\
    (forall cat, In cat (categories st) -> c_id cat = c ->
       exists found,
         get_questions_by_category st1 c = Ok (category_response cat found) /\
         In row found) /\
    (q <> "" -> no_backslash q = true ->
       exists found,
         question_search st1 (search_request q) = Ok (search_response found) /\
         In row found).
Proof.
  intros Hwf row.
  pose proof (next_id_fresh st Hwf) as Hfresh.
  destruct Hwf as [_ [_ [_ Hnd]]].
  eexists. split.
  { rewrite (create_question_run st _ (JStr q) (JStr a) (JNum c) (JNum d));
      reflexivity. }
  split; [|split].
  - unfold Question_query_get. simpl questions.
    apply (find_app_fresh (questions st) row). exact Hfresh.
  - intros cat Hin Hid. subst c.
    unfold get_questions_by_category, Category_query_all, Question_query_all.
    simpl categories. rewrite (filter_unique_category _ cat Hnd Hin).
    eexists. split; [reflexivity|].
    apply filter_In. split.
    + simpl. apply in_or_app. right. left. reflexivity.
    + simpl. apply Z.eqb_refl.
  - intros Hne Hnb.
    match goal with |- exists found, question_search ?s _ = _ /\ _ =>
      destruct (question_search_run s q Hne) as [ts [_ [Hts Hrun]]] end.
    eexists. split; [exact Hrun|].
    apply filter_In. split.
    + simpl. apply in_or_app. right. left. reflexivity.
    + simpl q_question. apply tmatch_any_here.
      apply tmatch_own_text; [|exact Hts].
      unfold no_backslash in Hnb. apply negb_true_iff in Hnb. exact Hnb.
Qed.

(** A new question of category 3, which had none. *)
Lemma created_question_is_found_witness :
  exists st1,
    create_question sample_store
      (create_request (JStr "Where is Oslo?") (JStr "Norway") (JNum 3) (JNum 2)) =
      (st1, Ok (created_response 13)) /\
    Question_query_get st1 13 =
      Some {| q_id := 13; q_question := "Where is Oslo?"; q_answer := "Norway";
              q_category := 3; q_difficulty := 2 |}.
Proof.
  assert (Hwf : wf_store sample_store).
  { unfold wf_store. simpl. split; [lia|]. split; [|split].
    - repeat constructor.
    - repeat constructor; simpl; lia.
    - repeat constructor; simpl; intuition discriminate. }
  destruct (created_question_is_found sample_store "Where is Oslo?" "Norway" 3 2 Hwf)
    as [st1 [Hrun [Hget _]]].
  exists st1. split; [exact Hrun|exact Hget].
Defined.

(** X11. The two handlers that write keep the invariant of the store:
    after [create_question] and after [delete_question], whatever they
    answered, the question ids are still positive, strictly ascending in
    table order and below the id sequence, and the category ids still
    unique. *)
Theorem handlers_keep_store_invariant (st : Store) :
  wf_store st ->
  (forall data, wf_store (fst (create_question st data))) /\
  (forall question_id, wf_store (fst (delete_question st question_id))).
Proof.
  intros Hwf. split.
  - intros data. apply create_question_keeps_wf, Hwf.
  - intros id. apply delete_question_keeps_wf, Hwf.
Qed.

(** The sample store after a create. *)
Lemma handlers_keep_store_invariant_witness :
  wf_store (fst (create_question sample_store
                   (create_request (JStr "Why?") (JStr "Because") (JNum 2) (JNum 3)))).
Proof.
  apply (proj1 (handlers_keep_store_invariant sample_store
                  ltac:(unfold wf_store; simpl; split; [lia|]; split; [|split];
                        [ repeat constructor
                        | repeat constructor; simpl; lia
                        | repeat constructor; simpl; intuition discriminate ]))).
Defined.

(* ================================================================== *)
(** * Further properties: the quiz *)
(* ================================================================== *)

Section QuizFacts.

Lemma list_getitem_In {A} (l : list A) (i : Z) (a : A) :
  list_getitem l i = Ok a -> In a l.
Proof.
  unfold list_getitem. cbv zeta.
  destruct (((if i <? 0 then i + Z.of_nat (List.length l) else i) <? 0)
            || (Z.of_nat (List.length l) <=?
                (if i <? 0 then i + Z.of_nat (List.length l) else i)));
    [discriminate|].
  destruct (nth_error l
              (Z.to_nat (if i <? 0 then i + Z.of_nat (List.length l) else i)))
    eqn:Hnth; [|discriminate].
  intros H. inversion H; subst. eapply nth_error_In, Hnth.
Qed.

(** The draws of [set_quiz] over a pool [l]: nothing but a 422 or a
    question of [l]. *)
Lemma quiz_draws (l : list Question) (g : rng) (prev_questions : json) :
  let draws :=
    '(i, g1) <- randint 0 (len l - 1) g;;
    next_question <- list_getitem l i;;
    seen <- py_in_int (q_id next_question) prev_questions;;
    next_question <- (if seen : bool
                      then '(j, _) <- randint 0 (len l - 1) g1;;
                           list_getitem l j
                      else Ok next_question);;
    Ok (quiz_response next_question) in
  try_except draws (abort 422) = abort 422 \/
  exists q, In q l /\ try_except draws (abort 422) = Ok (quiz_response q).
Proof.
  cbv zeta.
  destruct (randint 0 (len l - 1) g) as [[i g1]|e]; cbn [bind try_except];
    [|left; reflexivity].
  destruct (list_getitem l i) as [q|e] eqn:Hq; cbn [bind try_except];
    [|left; reflexivity].
  apply list_getitem_In in Hq.
  destruct (py_in_int (q_id q) prev_questions) as [[|]|e]; cbn [bind try_except];
    [| |left; reflexivity].
  - destruct (randint 0 (len l - 1) g1) as [[j g2]|e]; cbn [bind try_except];
      [|left; reflexivity].
    destruct (list_getitem l j) as [q'|e] eqn:Hq'; cbn [bind try_except];
      [|left; reflexivity].
    apply list_getitem_In in Hq'. right. exists q'. split; [exact Hq'|reflexivity].
  - right. exists q. split; [exact Hq|reflexivity].
Qed.

(** [set_quiz] once the category id is read. *)
Lemma set_quiz_pool_cases (st : Store) (g : rng) (data category category_id : json) :
  subscript data "quiz_category" = Ok category ->
  subscript category "id" = Ok category_id ->
  set_quiz st g data = abort 422 \/
  exists l q,
    (if py_eq_int category_id 0 then Ok (Question_query_all st)
     else filter_by_category st category_id) = Ok l /\
    In q l /\
    set_quiz st g data = Ok (quiz_response q).
Proof.
  intros Hcat Hid. unfold set_quiz. rewrite Hcat. cbn [bind].
  destruct (subscript data "previous_questions") as [prev|e]; cbn [bind try_except];
    [|left; reflexivity].
  destruct (is_None category || is_None prev); cbn [bind try_except];
    [left; reflexivity|].
  rewrite Hid. cbn [bind].
  destruct (if py_eq_int category_id 0 then Ok (Question_query_all st)
            else filter_by_category st category_id) as [l|e]; cbn [bind try_except];
    [|left; reflexivity].
  destruct (quiz_draws l g prev) as [H|[q [Hin H]]].
  - left. exact H.
  - right. exists l, q. split; [reflexivity|]. split; [exact Hin|exact H].
Qed.

Lemma set_quiz_cases (st : Store) (g : rng) (data : json) :
  set_quiz st g data = abort 422 \/
  exists q, In q (questions st) /\ set_quiz st g data = Ok (quiz_response q).
Proof.
  destruct (subscript data "quiz_category") as [category|e] eqn:Hcat.
  2:{ left. unfold set_quiz. rewrite Hcat. reflexivity. }
  destruct (subscript category "id") as [category_id|e] eqn:Hid.
  2:{ left. unfold set_quiz. rewrite Hcat. cbn [bind].
      destruct (subscript data "previous_questions") as [prev|e'];
        cbn [bind try_except]; [|reflexivity].
      destruct (is_None category || is_None prev); cbn [bind try_except];
        [reflexivity|].
      rewrite Hid. reflexivity. }
  destruct (set_quiz_pool_cases st g data category category_id Hcat Hid)
    as [H|[l [q [Hl [Hin H]]]]]; [left; exact H|].
  right. exists q. split; [|exact H].
  destruct (py_eq_int category_id 0).
  - inversion Hl; subst. exact Hin.
  - unfold filter_by_category in Hl.
    destruct category_id; try discriminate Hl;
      try (inversion Hl; subst; contradiction);
      (destruct (as_category _); [|discriminate Hl];
       inversion Hl; subst; apply filter_In in Hin; tauto).
Qed.

(** A category id sent as text, as by a client that takes the ids from
    the keys of the [categories] object, selects the pool of the integer
    it spells. *)
Lemma filter_by_category_text_id :
  filter_by_category sample_store (JStr "2") =
    filter_by_category sample_store (JNum 2) /\
  filter_by_category sample_store (JStr "two") = Raise StoreError /\
  filter_by_category sample_store JNull = Ok [].
Proof. repeat split. Qed.

End QuizFacts.

(** X12. Whatever the body and the generator, [set_quiz] either fails
    with 422 or answers 200 with one question of the store: every
    exception inside the handler, an [abort] included, ends in its bare
    [except]. *)
Theorem set_quiz_outcomes (st : Store) (g : rng) (data : json) :
  set_quiz st g data = abort 422 \/
  exists q, In q (questions st) /\ set_quiz st g data = Ok (quiz_response q).
Proof. apply set_quiz_cases. Qed.

(** X13. A quiz stays inside its category: when the id of
    [quiz_category] is an integer other than 0, [set_quiz] either fails
    with 422 or serves a stored question of that category, whatever the
    generator and whatever was asked before. *)
Theorem set_quiz_stays_in_category (st : Store) (g : rng) (data category : json) (c : Z) :
  subscript data "quiz_category" = Ok category ->
  subscript category "id" = Ok (JNum c) ->
  c <> 0 ->
  set_quiz st g data = abort 422 \/
  exists q,
    In q (questions st) /\ q_category q = c /\
    set_quiz st g data = Ok (quiz_response q).
Proof.
  intros Hcat Hid Hc.
  destruct (set_quiz_pool_cases st g data category (JNum c) Hcat Hid)
    as [H|[l [q [Hl [Hin H]]]]]; [left; exact H|].
  right. exists q.
  unfold py_eq_int, filter_by_category in Hl. simpl in Hl.
  destruct (c =? 0) eqn:E; [lia|].
  inversion Hl; subst. apply filter_In in Hin. destruct Hin as [Hin Hq].
  split; [exact Hin|]. split; [lia|exact H].
Qed.

(** A quiz on category 2 of the sample store. *)
Lemma set_quiz_stays_in_category_witness :
  set_quiz sample_store zero_rng (quiz_request 2 "Art" []) = abort 422 \/
  exists q,
    In q (questions sample_store) /\ q_category q = 2 /\
    set_quiz sample_store zero_rng (quiz_request 2 "Art" []) = Ok (quiz_response q).
Proof.
  apply (set_quiz_stays_in_category sample_store zero_rng
           (quiz_request 2 "Art" [])
           (JObj [("id", JNum 2); ("type", JStr "Art")]) 2).
  - reflexivity.
  - reflexivity.
  - lia.
Defined.

(** X14. A body that lacks [quiz_category] or [previous_questions], or
    holds null for either, makes [set_quiz] fail with 422: the [KeyError]
    is raised inside the [try], where [create_question] lets it escape. *)
Theorem set_quiz_missing_or_null (st : Store) (g : rng) (kvs : list (string * json)) :
  dict_lookup kvs "quiz_category" = None \/
  dict_lookup kvs "quiz_category" = Some JNull \/
  dict_lookup kvs "previous_questions" = None \/
  dict_lookup kvs "previous_questions" = Some JNull ->
  set_quiz st g (JObj kvs) = abort 422.
Proof.
  intros H. unfold set_quiz, subscript.
  destruct (dict_lookup kvs "quiz_category") as [category|] eqn:Hcat;
    cbn [bind try_except]; [|reflexivity].
  destruct (dict_lookup kvs "previous_questions") as [prev|] eqn:Hprev;
    cbn [bind try_except]; [|reflexivity].
  assert (Hnone : is_None category || is_None prev = true).
  { destruct H as [H|[H|[H|H]]]; try discriminate H;
      inversion H; subst; simpl; rewrite ?orb_true_r; reflexivity. }
  rewrite Hnone. reflexivity.
Qed.

(** The body of the repository's own failure test for the quiz. *)
Lemma set_quiz_missing_or_null_witness :
  set_quiz sample_store zero_rng
    (JObj [("previous_questions", JList []); ("quiz_category", JNull)])
  = abort 422.
Proof.
  apply (set_quiz_missing_or_null sample_store zero_rng
           [("previous_questions", JList []); ("quiz_category", JNull)]).
  right. left. reflexivity.
Defined.

(* ================================================================== *)
(** * Further properties: search *)
(* ================================================================== *)

Section SearchFacts.

(** The ILIKE filter of a search never fails, whatever the term. *)
Lemma search_filter_run (st : Store) (t : string) :
  exists ts,
    tokenize (list_ascii_of_string t ++ [percent]) = Some ts /\
    query_filter (fun q => ilike (q_question q) ("%" ++ t ++ "%"))
                 (Question_query_all st)
    = Ok (filter (fun q => tmatch (TAny :: ts) (list_ascii_of_string (q_question q)))
                 (questions st)).
Proof.
  destruct (tokenize_wrapped t) as [ts [Hts Hw]].
  exists ts. split; [exact Hts|]. unfold Question_query_all.
  rewrite (query_filter_ext _
             (fun q => Ok (tmatch (TAny :: ts) (list_ascii_of_string (q_question q))))).
  - apply query_filter_total.
  - intros q. unfold ilike. rewrite Hw. reflexivity.
Qed.

Lemma question_search_cases (st : Store) (data : json) :
  question_search st data = abort 404 \/
  question_search st data = Raise AttributeError \/
  exists found,
    incl found (questions st) /\
    question_search st data = Ok (search_response found).
Proof.
  unfold question_search.
  destruct (dict_get data "searchTerm") as [v|e] eqn:Hget; cbn [bind].
  - destruct (truthy v); [|left; reflexivity].
    destruct (search_filter_run st (py_str v)) as [ts [_ Hrun]].
    rewrite Hrun. cbn [bind]. right. right.
    eexists. split; [apply incl_filter|reflexivity].
  - right. left. unfold dict_get in Hget.
    destruct data; try (inversion Hget; reflexivity).
    destruct (dict_lookup kvs "searchTerm"); discriminate Hget.
Qed.

Lemma lower_idem (c : ascii) : lower (lower c) = lower c.
Proof. destruct c as [[] [] [] [] [] [] [] []]; reflexivity. Qed.

Lemma lower_backslash (c : ascii) :
  Ascii.eqb (lower c) backslash = Ascii.eqb c backslash.
Proof. destruct c as [[] [] [] [] [] [] [] []]; reflexivity. Qed.

Lemma lower_percent (c : ascii) :
  Ascii.eqb (lower c) percent = Ascii.eqb c percent.
Proof. destruct c as [[] [] [] [] [] [] [] []]; reflexivity. Qed.

Lemma lower_underscore (c : ascii) :
  Ascii.eqb (lower c) underscore = Ascii.eqb c underscore.
Proof. destruct c as [[] [] [] [] [] [] [] []]; reflexivity. Qed.

Lemma tokenize_lower (p : list ascii) :
  tokenize (map lower p) = option_map (map tok_lower) (tokenize p).
Proof.
  induction p as [| c | c d p IH1 IH2] using pattern_pair_ind.
  - reflexivity.
  - cbn [map]. rewrite (tokenize_cons (lower c)), (tokenize_cons c).
    rewrite lower_backslash, lower_percent, lower_underscore.
    destruct (Ascii.eqb c backslash); [reflexivity|].
    destruct (Ascii.eqb c percent); [reflexivity|].
    destruct (Ascii.eqb c underscore); reflexivity.
  - change (map lower (c :: d :: p)) with (lower c :: map lower (d :: p)).
    rewrite (tokenize_cons (lower c)), (tokenize_cons c).
    rewrite lower_backslash, lower_percent, lower_underscore.
    destruct (Ascii.eqb c backslash).
    + cbn [map]. rewrite IH1. destruct (tokenize p); reflexivity.
    + rewrite IH2.
      destruct (Ascii.eqb c percent); [destruct (tokenize (d :: p)); reflexivity|].
      destruct (Ascii.eqb c underscore); destruct (tokenize (d :: p)); reflexivity.
Qed.

Lemma eq_nocase_lower (c d : ascii) : eq_nocase (lower c) d = eq_nocase c d.
Proof. unfold eq_nocase. rewrite lower_idem. reflexivity. Qed.

Lemma tmatch_lower (ts : list tok) (s : list ascii) :
  tmatch (map tok_lower ts) s = tmatch ts s.
Proof.
  revert s. induction ts as [|[c| |] ts IH]; intros s.
  - reflexivity.
  - destruct s as [|d s]; [reflexivity|].
    cbn [map tok_lower tmatch]. rewrite eq_nocase_lower, IH. reflexivity.
  - destruct s as [|d s]; [reflexivity|].
    cbn [map tok_lower tmatch]. apply IH.
  - change (map tok_lower (TAny :: ts)) with (TAny :: map tok_lower ts).
    induction s as [|d s IHs].
    + rewrite !tmatch_any, IH. reflexivity.
    + rewrite (tmatch_any (map tok_lower ts)), (tmatch_any ts), IH, IHs.
      reflexivity.
Qed.

Lemma In_firstn {A} (n : nat) (l : list A) (x : A) : In x (firstn n l) -> In x l.
Proof.
  intros H. rewrite <- (firstn_skipn n l). apply in_or_app. left. exact H.
Qed.

Lemma In_skipn {A} (n : nat) (l : list A) (x : A) : In x (skipn n l) -> In x l.
Proof.
  intros H. rewrite <- (firstn_skipn n l). apply in_or_app. right. exact H.
Qed.

Lemma get_questions_cases (st : Store) (page_arg : option Z) :
  get_questions st page_arg = abort 404 \/
  get_questions st page_arg = Raise StoreError \/
  exists items,
    incl items (questions st) /\
    get_questions st page_arg = Ok (questions_response st items).
Proof.
  unfold get_questions, paginate, Question_query_all, Category_query_all.
  set (page := match page_arg with Some p => p | None => 1 end).
  destruct (page <? 1); [left; reflexivity|].
  change (10 <? 0) with false. cbv iota.
  unfold limit_offset.
  destruct ((10 <? 0) || ((page - 1) * 10 <? 0) || (max_bigint <? 10)
            || (max_bigint <? (page - 1) * 10)); cbn [bind];
    [right; left; reflexivity|].
  destruct (slice_rows 10 ((page - 1) * 10) (order_by_id (questions st)))
    as [|x xs] eqn:Hitems.
  - left. destruct (page =? 1); reflexivity.
  - right. right. exists (x :: xs). split; [|reflexivity].
    rewrite <- Hitems. intros q Hq. unfold slice_rows in Hq.
    apply In_firstn, In_skipn in Hq.
    eapply Permutation_in; [apply Permutation_sym, order_by_id_perm|exact Hq].
Qed.

Lemma get_questions_by_category_cases (st : Store) (category_id : Z) :
  get_questions_by_category st category_id = abort 404 \/
  get_questions_by_category st category_id = Raise MultipleResultsFound \/
  exists c found,
    In c (categories st) /\ c_id c = category_id /\
    incl found (questions st) /\
    (forall q, In q found -> q_category q = category_id) /\
    get_questions_by_category st category_id = Ok (category_response c found).
Proof.
  unfold get_questions_by_category, Category_query_all, Question_query_all.
  destruct (filter (fun c => c_id c =? category_id) (categories st))
    as [|c [|c' rest]] eqn:Hf; cbn [one_or_none bind].
  - left. reflexivity.
  - right. right. exists c. eexists.
    assert (Hc : In c (filter (fun c => c_id c =? category_id) (categories st)))
      by (rewrite Hf; left; reflexivity).
    apply filter_In in Hc. destruct Hc as [Hin Hid].
    split; [exact Hin|]. split; [lia|]. split; [apply incl_filter|].
    split; [|reflexivity].
    intros q Hq. apply filter_In in Hq. lia.
  - right. left. reflexivity.
Qed.

End SearchFacts.

(** X15. A search whose body is an object without [searchTerm], or with
    a [searchTerm] that Python holds false (null, the empty string, 0,
    [false], an empty list or object), answers 404 whatever the store
    holds. *)
Theorem question_search_falsy_term (st : Store) (kvs : list (string * json)) :
  dict_lookup kvs "searchTerm" = None \/
  (exists v, dict_lookup kvs "searchTerm" = Some v /\ truthy v = false) ->
  question_search st (JObj kvs) = abort 404.
Proof.
  intros [H|[v [H Hv]]]; unfold question_search, dict_get; rewrite H; cbn [bind].
  - reflexivity.
  - rewrite Hv. reflexivity.
Qed.

(** The empty term of the repository's own failure test, and the number 0. *)
Lemma question_search_falsy_term_witness :
  question_search sample_store (search_request "") = abort 404 /\
  question_search sample_store (JObj [("searchTerm", JNum 0)]) = abort 404.
Proof.
  split.
  - apply (question_search_falsy_term sample_store [("searchTerm", JStr "")]).
    right. exists (JStr ""). split; reflexivity.
  - apply (question_search_falsy_term sample_store [("searchTerm", JNum 0)]).
    right. exists (JNum 0). split; reflexivity.
Defined.



(** X17. The case of the term does not matter: two terms that differ in
    the case of their letters at most get the same answer from
    [question_search], wildcards and escapes included. *)
Theorem question_search_term_case (st : Store) (t1 t2 : string) :
  same_nocase t1 t2 ->
  question_search st (search_request t1) = question_search st (search_request t2).
Proof.
  unfold same_nocase. intros Hsame.
  destruct (string_dec t1 "") as [->|Hne1].
  { destruct t2; [reflexivity|discriminate Hsame]. }
  assert (Hne2 : t2 <> "").
  { intros ->. destruct t1; [contradiction|discriminate Hsame]. }
  destruct (question_search_run st t1 Hne1) as [ts1 [_ [Hts1 Hrun1]]].
  destruct (question_search_run st t2 Hne2) as [ts2 [_ [Hts2 Hrun2]]].
  rewrite Hrun1, Hrun2. do 2 f_equal.
  assert (Hlow : map tok_lower ts1 = map tok_lower ts2).
  { pose proof (tokenize_lower (list_ascii_of_string t1 ++ [percent])) as H1.
    pose proof (tokenize_lower (list_ascii_of_string t2 ++ [percent])) as H2.
    rewrite Hts1 in H1. rewrite Hts2 in H2.
    rewrite map_app, Hsame, <- map_app, H2 in H1.
    simpl in H1. inversion H1. reflexivity. }
  apply filter_ext. intros q.
  assert (Hts : forall s, tmatch ts1 s = tmatch ts2 s).
  { intros s. rewrite <- (tmatch_lower ts1), <- (tmatch_lower ts2), Hlow.
    reflexivity. }
  induction (list_ascii_of_string (q_question q)) as [|d s IHs].
  - rewrite (tmatch_any ts1), (tmatch_any ts2), Hts. reflexivity.
  - rewrite (tmatch_any ts1), (tmatch_any ts2), Hts, IHs. reflexivity.
Qed.

(** [painted] and [PaInTeD]. *)
Lemma question_search_term_case_witness :
  question_search sample_store (search_request "painted") =
  question_search sample_store (search_request "PaInTeD").
Proof.
  apply (question_search_term_case sample_store "painted" "PaInTeD").
  vm_compute. reflexivity.
Defined.

(* ================================================================== *)
(** * Further properties: the handlers together *)
(* ================================================================== *)

Section Together.

Lemma delete_question_gone (st : Store) (id : Z) :
  ~ In id (map q_id (questions (fst (delete_question st id)))).
Proof.
  rewrite delete_question_run.
  destruct (Question_query_get st id) as [q|] eqn:Hget; simpl.
  - apply filter_out_gone.
  - apply find_none_iff. exact Hget.
Qed.

Lemma not_in_sublist (rows found : list Question) (id : Z) :
  incl found rows -> ~ In id (map q_id rows) -> ~ In id (map q_id found).
Proof.
  intros Hincl Hno Hin. apply Hno.
  apply in_map_iff in Hin. destruct Hin as [q [Hid Hq]].
  apply in_map_iff. exists q. split; [exact Hid|apply Hincl, Hq].
Qed.

Lemma get_categories_cases (st : Store) :
  get_categories st = abort 404 \/
  exists d, get_categories st =
              Ok (jsonify 200 [("success", JBool true); ("categories", JObj d)]).
Proof.
  unfold get_categories.
  destruct (len (Category_query_all st) =? 0); [left; reflexivity|].
  right. eexists. reflexivity.
Qed.

End Together.

(** X18. A deleted question is never served again: in the store that
    [delete_question] leaves for an id, no page of [get_questions], no
    answer of [question_search], no listing of
    [get_questions_by_category] and no question of [set_quiz] carries
    that id. *)
Theorem deleted_question_is_gone (st : Store) (question_id : Z) :
  let st1 := fst (delete_question st question_id) in
  (forall page_arg r,
     get_questions st1 page_arg = Ok r ->
     exists items, r = questions_response st1 items /\
                   ~ In question_id (map q_id items)) /\
  (forall data r,
     question_search st1 data = Ok r ->
     exists found, r = search_response found /\
                   ~ In question_id (map q_id found)) /\
  (forall category_id r,
     get_questions_by_category st1 category_id = Ok r ->
     exists c found, r = category_response c found /\
                     ~ In question_id (map q_id found)) /\
  (forall g data r,
     set_quiz st1 g data = Ok r ->
     exists q, r = quiz_response q /\ q_id q <> question_id).
Proof.
  cbv zeta. pose proof (delete_question_gone st question_id) as Hgone.
  set (st1 := fst (delete_question st question_id)) in *.
  split; [|split; [|split]].
  - intros page_arg r H.
    destruct (get_questions_cases st1 page_arg) as [E|[E|[items [Hincl E]]]];
      rewrite E in H; try discriminate H.
    inversion H; subst r. exists items. split; [reflexivity|].
    eapply not_in_sublist; eassumption.
  - intros data r H.
    destruct (question_search_cases st1 data) as [E|[E|[found [Hincl E]]]];
      rewrite E in H; try discriminate H.
    inversion H; subst r. exists found. split; [reflexivity|].
    eapply not_in_sublist; eassumption.
  - intros cid r H.
    destruct (get_questions_by_category_cases st1 cid)
      as [E|[E|[c [found [_ [_ [Hincl [_ E]]]]]]]];
      rewrite E in H; try discriminate H.
    inversion H; subst r. exists c, found. split; [reflexivity|].
    eapply not_in_sublist; eassumption.
  - intros g data r H.
    destruct (set_quiz_cases st1 g data) as [E|[q [Hin E]]];
      rewrite E in H; [discriminate H|].
    inversion H; subst r. exists q. split; [reflexivity|].
    intros Hid. apply Hgone. apply in_map_iff. exists q. split; assumption.
Qed.

(** After question 2 is deleted, a search for the painters finds
    question 11 alone. *)
Lemma deleted_question_is_gone_witness :
  exists found,
    question_search (fst (delete_question sample_store 2)) (search_request "painted")
    = Ok (search_response found) /\
    ~ In 2 (map q_id found).
Proof.
  assert (Hrun : question_search (fst (delete_question sample_store 2))
                   (search_request "painted")
                 = Ok (search_response [mk_question 11 "Who painted Guernica?" 2]))
    by (vm_compute; reflexivity).
  destruct (proj1 (proj2 (deleted_question_is_gone sample_store 2)) _ _ Hrun)
    as [found [Hr Hno]].
  exists found. split; [rewrite Hrun, Hr; reflexivity|exact Hno].
Defined.

(** X19. The status codes of the API, the reading of the request body
    included. Whatever the store and the request, [get_categories]
    answers 200 or 404, [get_questions] 200, 404 or 500 (500 when the
    offset of the page is out of the range of the database),
    [delete_question] 200 or 422, [create_question] 201, 400, 422 or 500,
    [question_search] 200, 400, 404 or 500 (400 when the body does not
    parse), [get_questions_by_category] 200, 404 or 500, [set_quiz] 200
    or 422; every answer is a JSON object whose [success] field is true
    exactly when the status is below 300. *)
Theorem status_codes (st : Store) :
  api_answer [200; 404] (respond (get_categories st)) /\
  (forall page_arg,
     api_answer [200; 404; 500] (respond (get_questions st page_arg))) /\
  (forall question_id,
     api_answer [200; 422] (respond (snd (delete_question st question_id)))) /\
  (forall b,
     api_answer [201; 400; 422; 500]
                (respond (snd (create_question_view st b)))) /\
  (forall b,
     api_answer [200; 400; 404; 500] (respond (question_search_view st b))) /\
  (forall category_id,
     api_answer [200; 404; 500]
                (respond (get_questions_by_category st category_id))) /\
  (forall g b, api_answer [200; 422] (respond (set_quiz_view st g b))).
Proof.
  assert (Hans : forall codes code d,
            In code codes ->
            dict_lookup d "success" = Some (JBool (code <? 300)) ->
            api_answer codes (jsonify code d)).
  { intros codes code d Hin Hd. split; [exact Hin|].
    exists d. split; [reflexivity|exact Hd]. }
  split; [|split; [|split; [|split; [|split; [|split]]]]].
  - destruct (get_categories_cases st) as [E|[d E]]; rewrite E;
      apply Hans; simpl; auto.
  - intros page_arg.
    destruct (get_questions_cases st page_arg) as [E|[E|[items [_ E]]]];
      rewrite E; apply Hans; simpl; auto.
  - intros id. rewrite delete_question_run.
    destruct (Question_query_get st id); apply Hans; simpl; auto.
  - intros [|data]; unfold create_question_view; cbn [get_json snd].
    + apply Hans; simpl; auto.
    + destruct (create_question_cases st data)
        as [[row [E _]]|[_ [E|[[k E]|E]]]];
        rewrite E; apply Hans; simpl; auto.
  - intros [|data]; unfold question_search_view; cbn [get_json bind].
    + apply Hans; simpl; auto.
    + destruct (question_search_cases st data) as [E|[E|[found [_ E]]]];
        rewrite E; apply Hans; simpl; auto.
  - intros cid.
    destruct (get_questions_by_category_cases st cid)
      as [E|[E|[c [found [_ [_ [_ [_ E]]]]]]]]; rewrite E;
      apply Hans; simpl; auto.
  - intros g [|data]; unfold set_quiz_view; cbn [get_json bind try_except].
    + apply Hans; simpl; auto.
    + destruct (set_quiz_cases st g data) as [E|[q [_ E]]]; rewrite E;
        cbn [try_except]; apply Hans; simpl; auto.
Qed.

(** X20. [set_quiz] never ends a quiz: for a body with an integer
    category id and a list of asked values, whenever the pool of the
    category holds a question the answer is 200 with a question of the
    pool, whatever the generator and however many questions were asked,
    all of them included. *)
Theorem set_quiz_always_serves (st : Store) (g : rng) (data category : json)
        (c : Z) (asked : list json) :
  subscript data "quiz_category" = Ok category ->
  subscript data "previous_questions" = Ok (JList asked) ->
  subscript category "id" = Ok (JNum c) ->
  quiz_pool st c <> [] ->
  exists q, In q (quiz_pool st c) /\
            set_quiz st g data = Ok (quiz_response q).
Proof. apply set_quiz_serves_from_pool. Qed.

(** A quiz over all categories of the sample store with questions 1 to 3
    asked. *)
Lemma set_quiz_always_serves_witness :
  exists q, In q (quiz_pool sample_store 0) /\
            set_quiz sample_store (const_rng 7) (quiz_request 0 "click" [1; 2; 3])
            = Ok (quiz_response q).
Proof.
  apply (set_quiz_always_serves sample_store (const_rng 7)
           (quiz_request 0 "click" [1; 2; 3])
           (JObj [("id", JNum 0); ("type", JStr "click")]) 0
           [JNum 1; JNum 2; JNum 3]); try reflexivity.
  discriminate.
Defined.

(** X21. The single retry of [set_quiz] does not rule out a repeat: for
    every question of the pool that is among the asked ones there is a
    generator, the one that draws its index twice, with which [set_quiz]
    serves that question again. *)
Theorem set_quiz_may_serve_any_asked (st : Store) (data category : json) (c : Z)
        (asked : list json) (q : Question) :
  subscript data "quiz_category" = Ok category ->
  subscript data "previous_questions" = Ok (JList asked) ->
  subscript category "id" = Ok (JNum c) ->
  In q (quiz_pool st c) ->
  existsb (fun v => py_eq_int v (q_id q)) asked = true ->
  exists g, set_quiz st g data = Ok (quiz_response q).
Proof. apply set_quiz_can_repeat. Qed.

(** Question 5 of the sample store, asked before, in a quiz on category 2. *)
Lemma set_quiz_may_serve_any_asked_witness :
  exists g,
    set_quiz sample_store g (quiz_request 2 "Art" [5]) =
      Ok (quiz_response (mk_question 5 "Which artist cut off an ear?" 2)).
Proof.
  apply (set_quiz_may_serve_any_asked sample_store
           (quiz_request 2 "Art" [5])
           (JObj [("id", JNum 2); ("type", JStr "Art")]) 2 [JNum 5]);
    try reflexivity.
  simpl. auto.
Defined.
